(** * AstroConnect: the solar calculator ([SolarCalculator])

    A shallow embedding of the static methods of the TypeScript class
    [SolarCalculator] (client/src/lib/solar-calculations.ts) and of the
    interfaces of client/src/types/solar.ts they consume and produce.

    Numbers.  A TypeScript [number] is modelled as a real number and the
    arithmetic of the source ([+], [-], [*], [/], [Math.max], [Math.min],
    [Math.abs], [Math.sqrt], [Math.pow]) as exact real arithmetic: rounding
    to binary64, [NaN] and the infinities are outside the model.  The only
    places where the source leaves the reals are the empty series (a mean
    [0/0] and [Math.max()] of no argument), so every statement about
    [calculateMetrics] is made for non-empty series.

    Beside the calculator the file embeds the in-memory storage
    (server/storage.ts) over the entities of shared/schema.ts, the project
    routes of server/routes.ts, and the caption that the sidebar computes
    from the metrics.  The calculator is embedded a second time in binary64
    ([Binary64]), to run it as the source runs and to state what depends on
    rounding or on [NaN]. *)

From Stdlib Require Import Reals Lra List String Bool.
From Stdlib Require Import Psatz ZArith.
From Stdlib Require Floats Uint63.
Import ListNotations.

#[local] Open Scope R_scope.

(** ** JavaScript primitives used by the calculator *)

Module Js.

(** A [Record<string, number>]: the own enumerable properties of the
    object, in enumeration order. *)
Definition record : Type := list (string * R).

(** [Object.values(o)]. *)
Definition Object_values (o : record) : list R := map snd o.

(** [a.length], as a number. *)
Definition length (a : list R) : R := INR (List.length a).

(** [a.reduce(f, init)]. *)
Definition reduce {A B : Type} (f : B -> A -> B) (init : B) (a : list A) : B :=
  fold_left f a init.

(** [Math.max(...a)].  With no argument JavaScript answers [-Infinity],
    which is not a real number; [0] stands in its place and no statement
    below depends on it. *)
Definition Math_max_spread (a : list R) : R :=
  match a with
  | [] => 0
  | x :: xs => fold_left Rmax xs x
  end.

(** Comparisons of numbers, as the booleans that [if] tests. *)
Definition gt (x y : R) : bool := if Rgt_dec x y then true else false.
Definition lt (x y : R) : bool := if Rlt_dec x y then true else false.
Definition ge (x y : R) : bool := if Rge_dec x y then true else false.

(** Truthiness of a number: every number but [0] (and [NaN]) is truthy. *)
Definition truthy (x : R) : bool := if Req_dec_T x 0 then false else true.

(** [a.push(s)] on an array held in a local variable. *)
Definition push {A : Type} (a : list A) (s : A) : list A := a ++ [s].

End Js.

(** ** client/src/types/solar.ts *)

Module SolarMetrics.
Record t : Type := mk {
  dailyIrradiance : R;
  efficiency : R;
  temperature : R;
  peakOutput : R;
  averageOutput : R;
  variance : R
}.
End SolarMetrics.

Module MissionParameters.
Record t : Type := mk {
  panelArea : R;
  systemEfficiency : R;
  missionDuration : R;
  batteryCapacity : option R
}.
End MissionParameters.

Module CalculationResults.
Record t : Type := mk {
  totalEnergyOutput : R;
  dailyAverage : R;
  peakOutput : R;
  efficiency : R;
  batteryRequired : R;
  missionViability : bool;
  recommendations : list string
}.
End CalculationResults.

Module NASAPowerResponse.
Record parameter_t : Type := mk_parameter {
  ALLSKY_SFC_SW_DWN : Js.record;
  T2M : Js.record;
  RH2M : option Js.record;
  WS10M : option Js.record;
  CLOUD_AMT : option Js.record
}.
Record properties_t : Type := mk_properties { parameter : parameter_t }.
Record geometry_t : Type := mk_geometry { coordinates : R * R }.
Record t : Type := mk {
  geometry : geometry_t;
  properties : properties_t
}.
End NASAPowerResponse.

(** ** client/src/lib/solar-calculations.ts *)

Module SolarCalculator.

Import Js.

(** [private static calculateVariance(values)]. *)
Definition calculateVariance (values : list R) : R :=
  let mean := reduce (fun sum val => sum + val) 0 values / length values in
  let squaredDiffs := map (fun val => (val - mean) ^ 2) values in
  sqrt (reduce (fun sum val => sum + val) 0 squaredDiffs / length values).

(** The constants of [calculateMetrics]. *)
Definition tempCoefficient : R := -0.004.
Definition referenceTemp : R := 25.

(** The local [tempLoss] of [calculateMetrics], as a function of the mean
    temperature it is computed from. *)
Definition tempLoss (temperature : R) : R :=
  Rmax 0 ((temperature - referenceTemp) * tempCoefficient).

(** [static calculateMetrics(nasaData)]. *)
Definition calculateMetrics (nasaData : NASAPowerResponse.t) : SolarMetrics.t :=
  let irradianceData :=
    NASAPowerResponse.ALLSKY_SFC_SW_DWN
      (NASAPowerResponse.parameter (NASAPowerResponse.properties nasaData)) in
  let temperatureData :=
    NASAPowerResponse.T2M
      (NASAPowerResponse.parameter (NASAPowerResponse.properties nasaData)) in
  let irradianceValues := Object_values irradianceData in
  let temperatureValues := Object_values temperatureData in
  let dailyIrradiance :=
    reduce (fun sum val => sum + val) 0 irradianceValues / length irradianceValues in
  let temperature :=
    reduce (fun sum val => sum + val) 0 temperatureValues / length temperatureValues in
  let tempLoss := tempLoss temperature in
  let efficiency := Rmax 0.1 (1 + tempLoss) in
  let peakOutput := Math_max_spread irradianceValues in
  let averageOutput := dailyIrradiance in
  let variance := calculateVariance irradianceValues in
  {| SolarMetrics.dailyIrradiance := dailyIrradiance;
     SolarMetrics.efficiency := efficiency * 100;
     SolarMetrics.temperature := temperature;
     SolarMetrics.peakOutput := peakOutput;
     SolarMetrics.averageOutput := averageOutput;
     SolarMetrics.variance := variance |}.

(** The advisory strings of [generateRecommendations]. *)
Definition msgExcellent : string :=
  "Excellent solar resource - ideal for space missions".
Definition msgGood : string :=
  "Good solar resource - suitable for most applications".
Definition msgConsider : string :=
  "Consider high-efficiency panels or backup power systems".
Definition msgHot : string :=
  "High temperatures detected - implement cooling systems".
Definition msgCold : string :=
  "Extreme cold conditions - use cold-weather rated equipment".
Definition msgBattery : string :=
  "Large battery system required - consider modular design".
Definition msgPanelArea : string :=
  "Energy output below mission requirements - increase panel area".
Definition msgUpgrade : string :=
  "Consider upgrading to higher efficiency panels (>20%)".

(** [private static generateRecommendations(metrics, parameters,
    totalEnergy, batteryRequired)]: the array [recommendations] is threaded
    through the five [if] statements in the order of the source. *)
Definition generateRecommendations
    (metrics : SolarMetrics.t) (parameters : MissionParameters.t)
    (totalEnergy batteryRequired : R) : list string :=
  let recommendations : list string := [] in
  let recommendations :=
    if gt (SolarMetrics.dailyIrradiance metrics) 6.5 then
      push recommendations msgExcellent
    else if gt (SolarMetrics.dailyIrradiance metrics) 4.5 then
      push recommendations msgGood
    else
      push recommendations msgConsider in
  let recommendations :=
    if gt (SolarMetrics.temperature metrics) 35 then
      push recommendations msgHot
    else if lt (SolarMetrics.temperature metrics) (-20) then
      push recommendations msgCold
    else recommendations in
  let recommendations :=
    if gt batteryRequired 2000 then push recommendations msgBattery
    else recommendations in
  let recommendations :=
    if lt totalEnergy 1000 then push recommendations msgPanelArea
    else recommendations in
  let recommendations :=
    if lt (MissionParameters.systemEfficiency parameters) 0.20 then
      push recommendations msgUpgrade
    else recommendations in
  recommendations.

(** [static calculateMissionEnergy(metrics, parameters)]. *)
Definition calculateMissionEnergy
    (metrics : SolarMetrics.t) (parameters : MissionParameters.t)
    : CalculationResults.t :=
  let panelArea := MissionParameters.panelArea parameters in
  let systemEfficiency := MissionParameters.systemEfficiency parameters in
  let missionDuration := MissionParameters.missionDuration parameters in
  let dailyIrradiance := SolarMetrics.dailyIrradiance metrics in
  let efficiency := SolarMetrics.efficiency metrics in
  let dailyEnergyOutput :=
    dailyIrradiance * panelArea * systemEfficiency * (efficiency / 100) in
  let totalEnergyOutput := dailyEnergyOutput * missionDuration in
  let lunarNightHours := 350 in
  let dailyPowerConsumption := dailyEnergyOutput / 24 in
  let batteryRequired := dailyPowerConsumption * lunarNightHours in
  let minRequiredEnergy := 1000 in
  let missionViability := ge totalEnergyOutput minRequiredEnergy in
  let recommendations :=
    generateRecommendations metrics parameters totalEnergyOutput batteryRequired in
  {| CalculationResults.totalEnergyOutput := totalEnergyOutput;
     CalculationResults.dailyAverage := dailyEnergyOutput;
     CalculationResults.peakOutput :=
       SolarMetrics.peakOutput metrics * panelArea * systemEfficiency;
     CalculationResults.efficiency := efficiency;
     CalculationResults.batteryRequired := batteryRequired;
     CalculationResults.missionViability := missionViability;
     CalculationResults.recommendations := recommendations |}.

(** [static calculateOptimalTilt(latitude)]. *)
Definition calculateOptimalTilt (latitude : R) : R := Rabs latitude.

(** [static calculateSystemLosses(temperature, humidity?)]: an omitted
    [humidity] is [None]; the local [losses] is threaded through the two
    [if] statements. *)
Definition calculateSystemLosses (temperature : R) (humidity : option R) : R :=
  let losses := 0.14 in
  let losses :=
    if gt temperature 35 then losses + 0.02
    else if lt temperature (-10) then losses + 0.01
    else losses in
  let losses :=
    if match humidity with
       | Some h => truthy h && gt h 80
       | None => false
       end
    then losses + 0.01
    else losses in
  Rmin losses 0.3.

End SolarCalculator.

(** ** The JavaScript [Map] with string keys

    The entries in insertion order, each key at most once.  [set] on a key
    already present replaces the value where the key stands; [delete] reports
    whether the key was there. *)

Module JsMap.

Definition t (V : Type) : Type := list (string * V).

(** [new Map()]. *)
Definition empty {V : Type} : t V := [].

(** [m.get(key)]; [None] is [undefined]. *)
Fixpoint get {V : Type} (m : t V) (key : string) : option V :=
  match m with
  | [] => None
  | (k, v) :: rest => if String.eqb k key then Some v else get rest key
  end.

(** [m.set(key, value)]. *)
Fixpoint set {V : Type} (m : t V) (key : string) (value : V) : t V :=
  match m with
  | [] => [(key, value)]
  | (k, v) :: rest =>
      if String.eqb k key then (k, value) :: rest
      else (k, v) :: set rest key value
  end.

(** [m.delete(key)]: the answer and the map afterwards. *)
Fixpoint delete {V : Type} (m : t V) (key : string) : bool * t V :=
  match m with
  | [] => (false, [])
  | (k, v) :: rest =>
      if String.eqb k key then (true, rest)
      else let (found, rest') := delete rest key in (found, (k, v) :: rest')
  end.

(** [Array.from(m.values())]. *)
Definition values {V : Type} (m : t V) : list V := map snd m.

Definition keys {V : Type} (m : t V) : list string := map fst m.

(** What a [Map] guarantees of its entries: no key twice. *)
Definition wellFormed {V : Type} (m : t V) : Prop := NoDup (keys m).

End JsMap.

(** ** shared/schema.ts: the stored entities

    The types inferred from the tables.  A property that an object may lack
    is [optional]; a column that admits [null] is [nullable].  The objects
    that [MemStorage] builds by spreading an insert value carry the optional
    properties only when the insert value does, so they are optional in the
    stored entity as well. *)

Module Schema.

Definition optional (A : Type) : Type := option A.
Definition nullable (A : Type) : Type := option A.

(** A [json] column. *)
#[local] Unset Elimination Schemes.
Inductive Json : Type :=
| JNull
| JBool (b : bool)
| JNum (x : R)
| JStr (s : string)
| JArr (items : list Json)
| JObj (fields : list (string * Json)).
#[local] Set Elimination Schemes.

(** A [Date], in milliseconds since the epoch. *)
Definition Date : Type := Z.

(** In a spread [{...old, ...new}] a property present in [new] wins. *)
Definition spread {A : Type} (old : A) (new : optional A) : A :=
  match new with
  | Some v => v
  | None => old
  end.

Definition spreadOptional {A : Type} (old new : optional A) : optional A :=
  match new with
  | Some v => Some v
  | None => old
  end.

End Schema.

Module InsertSolarAnalysisProject.
Import Schema.
Record t : Type := mk {
  name : string;
  description : optional (nullable string);
  latitude : R;
  longitude : R;
  elevation : optional (nullable R);
  timezone : optional (nullable string);
  panelArea : optional R;
  systemEfficiency : optional R;
  missionDuration : optional R;
  solarData : optional Json;
  calculations : optional Json;
  isActive : optional bool
}.
End InsertSolarAnalysisProject.

(** [Partial<InsertSolarAnalysisProject>]. *)
Module PartialInsertSolarAnalysisProject.
Import Schema.
Record t : Type := mk {
  name : optional string;
  description : optional (nullable string);
  latitude : optional R;
  longitude : optional R;
  elevation : optional (nullable R);
  timezone : optional (nullable string);
  panelArea : optional R;
  systemEfficiency : optional R;
  missionDuration : optional R;
  solarData : optional Json;
  calculations : optional Json;
  isActive : optional bool
}.
End PartialInsertSolarAnalysisProject.

Module SolarAnalysisProject.
Import Schema.
Record t : Type := mk {
  id : string;
  name : string;
  description : optional (nullable string);
  latitude : R;
  longitude : R;
  elevation : optional (nullable R);
  timezone : optional (nullable string);
  panelArea : optional R;
  systemEfficiency : optional R;
  missionDuration : optional R;
  solarData : optional Json;
  calculations : optional Json;
  isActive : optional bool;
  createdAt : Date;
  updatedAt : Date
}.
End SolarAnalysisProject.

Module InsertSolarDataRecord.
Import Schema.
Record t : Type := mk {
  projectId : string;
  date : string;
  irradiance : R;
  temperature : R;
  cloudCover : optional (nullable R);
  humidity : optional (nullable R);
  windSpeed : optional (nullable R);
  efficiency : optional (nullable R);
  energyOutput : optional (nullable R);
  dataSource : optional string
}.
End InsertSolarDataRecord.

Module SolarDataRecord.
Import Schema.
Record t : Type := mk {
  id : string;
  projectId : string;
  date : string;
  irradiance : R;
  temperature : R;
  cloudCover : optional (nullable R);
  humidity : optional (nullable R);
  windSpeed : optional (nullable R);
  efficiency : optional (nullable R);
  energyOutput : optional (nullable R);
  dataSource : optional string;
  createdAt : Date
}.
End SolarDataRecord.

Module InsertComparisonAnalysis.
Import Schema.
Record t : Type := mk {
  name : string;
  projectIds : list string;
  analysisType : string;
  results : optional Json
}.
End InsertComparisonAnalysis.

Module ComparisonAnalysis.
Import Schema.
Record t : Type := mk {
  id : string;
  name : string;
  projectIds : list string;
  analysisType : string;
  results : optional Json;
  createdAt : Date
}.
End ComparisonAnalysis.

(** ** server/storage.ts: [MemStorage]

    The three private maps are the state; a method takes the state and
    returns its answer, with the state afterwards when it writes.  What the
    source draws from outside, the identifier of [randomUUID()] and the time
    of [new Date()], is an argument.  The methods are [async] without an
    [await]: each runs to its end when called, and the promise resolves to
    the answer given here. *)

Module MemStorage.

Import Schema.

Record t : Type := mk {
  solarProjects : JsMap.t SolarAnalysisProject.t;
  solarDataRecords : JsMap.t SolarDataRecord.t;
  comparisonAnalyses : JsMap.t ComparisonAnalysis.t
}.

(** The example project of the constructor; its two dates are two calls of
    [new Date()]. *)
Definition kscProject (createdAt updatedAt : Date) : SolarAnalysisProject.t :=
  {| SolarAnalysisProject.id := "ksc-001";
     SolarAnalysisProject.name := "Kennedy Space Center Analysis";
     SolarAnalysisProject.description :=
       Some (Some "NASA launch facility solar energy analysis"%string);
     SolarAnalysisProject.latitude := 28.5721;
     SolarAnalysisProject.longitude := -80.6480;
     SolarAnalysisProject.elevation := Some (Some 3);
     SolarAnalysisProject.timezone := Some (Some "UTC-5"%string);
     SolarAnalysisProject.panelArea := Some 100;
     SolarAnalysisProject.systemEfficiency := Some 0.22;
     SolarAnalysisProject.missionDuration := Some 14;
     SolarAnalysisProject.solarData := Some JNull;
     SolarAnalysisProject.calculations := Some JNull;
     SolarAnalysisProject.isActive := Some true;
     SolarAnalysisProject.createdAt := createdAt;
     SolarAnalysisProject.updatedAt := updatedAt |}.

(** [constructor()]. *)
Definition constructor (createdAt updatedAt : Date) : t :=
  let solarProjects := JsMap.empty in
  let solarDataRecords := JsMap.empty in
  let comparisonAnalyses := JsMap.empty in
  let kscProject := kscProject createdAt updatedAt in
  let solarProjects :=
    JsMap.set solarProjects (SolarAnalysisProject.id kscProject) kscProject in
  {| solarProjects := solarProjects;
     solarDataRecords := solarDataRecords;
     comparisonAnalyses := comparisonAnalyses |}.

(** [getSolarProject(id)]. *)
Definition getSolarProject (this : t) (id : string)
    : option SolarAnalysisProject.t :=
  JsMap.get (solarProjects this) id.

(** [getAllSolarProjects()]. *)
Definition getAllSolarProjects (this : t) : list SolarAnalysisProject.t :=
  JsMap.values (solarProjects this).

(** [createSolarProject(project)], with [id = randomUUID()] and
    [now = new Date()]. *)
Definition createSolarProject
    (this : t) (project : InsertSolarAnalysisProject.t) (id : string) (now : Date)
    : SolarAnalysisProject.t * t :=
  let newProject :=
    {| SolarAnalysisProject.id := id;
       SolarAnalysisProject.name := InsertSolarAnalysisProject.name project;
       SolarAnalysisProject.description :=
         InsertSolarAnalysisProject.description project;
       SolarAnalysisProject.latitude := InsertSolarAnalysisProject.latitude project;
       SolarAnalysisProject.longitude := InsertSolarAnalysisProject.longitude project;
       SolarAnalysisProject.elevation := InsertSolarAnalysisProject.elevation project;
       SolarAnalysisProject.timezone := InsertSolarAnalysisProject.timezone project;
       SolarAnalysisProject.panelArea := InsertSolarAnalysisProject.panelArea project;
       SolarAnalysisProject.systemEfficiency :=
         InsertSolarAnalysisProject.systemEfficiency project;
       SolarAnalysisProject.missionDuration :=
         InsertSolarAnalysisProject.missionDuration project;
       SolarAnalysisProject.solarData := InsertSolarAnalysisProject.solarData project;
       SolarAnalysisProject.calculations :=
         InsertSolarAnalysisProject.calculations project;
       SolarAnalysisProject.isActive := InsertSolarAnalysisProject.isActive project;
       SolarAnalysisProject.createdAt := now;
       SolarAnalysisProject.updatedAt := now |} in
  (newProject,
   {| solarProjects := JsMap.set (solarProjects this) id newProject;
      solarDataRecords := solarDataRecords this;
      comparisonAnalyses := comparisonAnalyses this |}).

(** The object [{...existing, ...project, updatedAt: now}]. *)
Definition updatedProject
    (existing : SolarAnalysisProject.t) (project : PartialInsertSolarAnalysisProject.t)
    (now : Date) : SolarAnalysisProject.t :=
  {| SolarAnalysisProject.id := SolarAnalysisProject.id existing;
     SolarAnalysisProject.name :=
       spread (SolarAnalysisProject.name existing)
         (PartialInsertSolarAnalysisProject.name project);
     SolarAnalysisProject.description :=
       spreadOptional (SolarAnalysisProject.description existing)
         (PartialInsertSolarAnalysisProject.description project);
     SolarAnalysisProject.latitude :=
       spread (SolarAnalysisProject.latitude existing)
         (PartialInsertSolarAnalysisProject.latitude project);
     SolarAnalysisProject.longitude :=
       spread (SolarAnalysisProject.longitude existing)
         (PartialInsertSolarAnalysisProject.longitude project);
     SolarAnalysisProject.elevation :=
       spreadOptional (SolarAnalysisProject.elevation existing)
         (PartialInsertSolarAnalysisProject.elevation project);
     SolarAnalysisProject.timezone :=
       spreadOptional (SolarAnalysisProject.timezone existing)
         (PartialInsertSolarAnalysisProject.timezone project);
     SolarAnalysisProject.panelArea :=
       spreadOptional (SolarAnalysisProject.panelArea existing)
         (PartialInsertSolarAnalysisProject.panelArea project);
     SolarAnalysisProject.systemEfficiency :=
       spreadOptional (SolarAnalysisProject.systemEfficiency existing)
         (PartialInsertSolarAnalysisProject.systemEfficiency project);
     SolarAnalysisProject.missionDuration :=
       spreadOptional (SolarAnalysisProject.missionDuration existing)
         (PartialInsertSolarAnalysisProject.missionDuration project);
     SolarAnalysisProject.solarData :=
       spreadOptional (SolarAnalysisProject.solarData existing)
         (PartialInsertSolarAnalysisProject.solarData project);
     SolarAnalysisProject.calculations :=
       spreadOptional (SolarAnalysisProject.calculations existing)
         (PartialInsertSolarAnalysisProject.calculations project);
     SolarAnalysisProject.isActive :=
       spreadOptional (SolarAnalysisProject.isActive existing)
         (PartialInsertSolarAnalysisProject.isActive project);
     SolarAnalysisProject.createdAt := SolarAnalysisProject.createdAt existing;
     SolarAnalysisProject.updatedAt := now |}.

(** [updateSolarProject(id, project)], with [now = new Date()]. *)
Definition updateSolarProject
    (this : t) (id : string) (project : PartialInsertSolarAnalysisProject.t)
    (now : Date) : option SolarAnalysisProject.t * t :=
  let existing := JsMap.get (solarProjects this) id in
  match existing with
  | None => (None, this)
  | Some existing =>
      let updated := updatedProject existing project now in
      (Some updated,
       {| solarProjects := JsMap.set (solarProjects this) id updated;
          solarDataRecords := solarDataRecords this;
          comparisonAnalyses := comparisonAnalyses this |})
  end.

(** [deleteSolarProject(id)]. *)
Definition deleteSolarProject (this : t) (id : string) : bool * t :=
  let (deleted, solarProjects) := JsMap.delete (solarProjects this) id in
  (deleted,
   {| solarProjects := solarProjects;
      solarDataRecords := solarDataRecords this;
      comparisonAnalyses := comparisonAnalyses this |}).

(** [getSolarDataForProject(projectId)]. *)
Definition getSolarDataForProject (this : t) (projectId : string)
    : list SolarDataRecord.t :=
  filter (fun record => String.eqb (SolarDataRecord.projectId record) projectId)
    (JsMap.values (solarDataRecords this)).

(** [createSolarDataRecord(record)], with [id = randomUUID()] and
    [now = new Date()]. *)
Definition createSolarDataRecord
    (this : t) (record : InsertSolarDataRecord.t) (id : string) (now : Date)
    : SolarDataRecord.t * t :=
  let newRecord :=
    {| SolarDataRecord.id := id;
       SolarDataRecord.projectId := InsertSolarDataRecord.projectId record;
       SolarDataRecord.date := InsertSolarDataRecord.date record;
       SolarDataRecord.irradiance := InsertSolarDataRecord.irradiance record;
       SolarDataRecord.temperature := InsertSolarDataRecord.temperature record;
       SolarDataRecord.cloudCover := InsertSolarDataRecord.cloudCover record;
       SolarDataRecord.humidity := InsertSolarDataRecord.humidity record;
       SolarDataRecord.windSpeed := InsertSolarDataRecord.windSpeed record;
       SolarDataRecord.efficiency := InsertSolarDataRecord.efficiency record;
       SolarDataRecord.energyOutput := InsertSolarDataRecord.energyOutput record;
       SolarDataRecord.dataSource := InsertSolarDataRecord.dataSource record;
       SolarDataRecord.createdAt := now |} in
  (newRecord,
   {| solarProjects := solarProjects this;
      solarDataRecords := JsMap.set (solarDataRecords this) id newRecord;
      comparisonAnalyses := comparisonAnalyses this |}).

(** [getSolarDataByDateRange(projectId, startDate, endDate)]: the dates are
    strings and [>=], [<=] compare them as strings. *)
Definition getSolarDataByDateRange
    (this : t) (projectId startDate endDate : string) : list SolarDataRecord.t :=
  filter
    (fun record =>
       String.eqb (SolarDataRecord.projectId record) projectId
       && String.leb startDate (SolarDataRecord.date record)
       && String.leb (SolarDataRecord.date record) endDate)
    (JsMap.values (solarDataRecords this)).

(** [getComparisonAnalysis(id)]. *)
Definition getComparisonAnalysis (this : t) (id : string)
    : option ComparisonAnalysis.t :=
  JsMap.get (comparisonAnalyses this) id.

(** [getAllComparisonAnalyses()]. *)
Definition getAllComparisonAnalyses (this : t) : list ComparisonAnalysis.t :=
  JsMap.values (comparisonAnalyses this).

(** [createComparisonAnalysis(analysis)], with [id = randomUUID()] and
    [now = new Date()]. *)
Definition createComparisonAnalysis
    (this : t) (analysis : InsertComparisonAnalysis.t) (id : string) (now : Date)
    : ComparisonAnalysis.t * t :=
  let newAnalysis :=
    {| ComparisonAnalysis.id := id;
       ComparisonAnalysis.name := InsertComparisonAnalysis.name analysis;
       ComparisonAnalysis.projectIds := InsertComparisonAnalysis.projectIds analysis;
       ComparisonAnalysis.analysisType :=
         InsertComparisonAnalysis.analysisType analysis;
       ComparisonAnalysis.results := InsertComparisonAnalysis.results analysis;
       ComparisonAnalysis.createdAt := now |} in
  (newAnalysis,
   {| solarProjects := solarProjects this;
      solarDataRecords := solarDataRecords this;
      comparisonAnalyses := JsMap.set (comparisonAnalyses this) id newAnalysis |}).

(** Every map of the state is a [Map]: no key twice. *)
Definition wellFormed (this : t) : Prop :=
  JsMap.wellFormed (solarProjects this)
  /\ JsMap.wellFormed (solarDataRecords this)
  /\ JsMap.wellFormed (comparisonAnalyses this).

(** Every entity is stored under its own identifier. *)
Definition keyedById (this : t) : Prop :=
  (forall id project,
     JsMap.get (solarProjects this) id = Some project ->
     SolarAnalysisProject.id project = id)
  /\ (forall id record,
        JsMap.get (solarDataRecords this) id = Some record ->
        SolarDataRecord.id record = id)
  /\ (forall id analysis,
        JsMap.get (comparisonAnalyses this) id = Some analysis ->
        ComparisonAnalysis.id analysis = id).

(** An update that names the panel area only. *)
Definition panelAreaUpdate : PartialInsertSolarAnalysisProject.t :=
  PartialInsertSolarAnalysisProject.mk
    None None None None None None (Some 250) None None None None None.

(** An update that names no property. *)
Definition emptyUpdate : PartialInsertSolarAnalysisProject.t :=
  PartialInsertSolarAnalysisProject.mk
    None None None None None None None None None None None None.

End MemStorage.

(** ** server/routes.ts: the project routes

    A handler is modelled by the response it sends and the storage it leaves.
    The status of a response is 200 unless [res.status] sets it.  The
    validation of a request body by the insert schema belongs to a library:
    its outcome, the validated value or [None] when [parse] throws, is an
    argument.  No method of [MemStorage] throws, so the [catch] branches
    that answer 500 are not reached from them. *)

Module Routes.

Import Schema.

Inductive Body : Type :=
| Error (error : string)
| Project (project : SolarAnalysisProject.t)
| Projects (projects : list SolarAnalysisProject.t)
| Data (records : list SolarDataRecord.t)
| NoBody.

Record Response : Type := mk { status : nat; body : Body }.

(** [res.json(body)], [res.status(code).json(body)], [res.status(code).send()]. *)
Definition json (body : Body) : Response := {| status := 200; body := body |}.
Definition status_json (code : nat) (body : Body) : Response :=
  {| status := code; body := body |}.
Definition status_send (code : nat) : Response :=
  {| status := code; body := NoBody |}.

(** A query parameter is truthy when it is given and not empty. *)
Definition truthy (parameter : option string) : bool :=
  match parameter with
  | Some value => negb (String.eqb value "")
  | None => false
  end.

(** [GET /api/projects]. *)
Definition get_projects (storage : MemStorage.t) : Response :=
  let projects := MemStorage.getAllSolarProjects storage in
  json (Projects projects).

(** [GET /api/projects/:id]. *)
Definition get_project (storage : MemStorage.t) (id : string) : Response :=
  let project := MemStorage.getSolarProject storage id in
  match project with
  | None => status_json 404 (Error "Project not found")
  | Some project => json (Project project)
  end.

(** [POST /api/projects]. *)
Definition post_project
    (storage : MemStorage.t) (validatedData : option InsertSolarAnalysisProject.t)
    (id : string) (now : Date) : Response * MemStorage.t :=
  match validatedData with
  | None => (status_json 400 (Error "Invalid project data"), storage)
  | Some validatedData =>
      let (project, storage) :=
        MemStorage.createSolarProject storage validatedData id now in
      (status_json 201 (Project project), storage)
  end.

(** [PUT /api/projects/:id]. *)
Definition put_project
    (storage : MemStorage.t) (id : string)
    (validatedData : option PartialInsertSolarAnalysisProject.t) (now : Date)
    : Response * MemStorage.t :=
  match validatedData with
  | None => (status_json 400 (Error "Invalid project data"), storage)
  | Some validatedData =>
      let (project, storage) :=
        MemStorage.updateSolarProject storage id validatedData now in
      match project with
      | None => (status_json 404 (Error "Project not found"), storage)
      | Some project => (json (Project project), storage)
      end
  end.

(** [DELETE /api/projects/:id]. *)
Definition delete_project (storage : MemStorage.t) (id : string)
    : Response * MemStorage.t :=
  let (deleted, storage) := MemStorage.deleteSolarProject storage id in
  if negb deleted then (status_json 404 (Error "Project not found"), storage)
  else (status_send 204, storage).

(** [GET /api/projects/:id/data], with the query parameters [startDate] and
    [endDate]: each is absent or, as the casts of the source take it, a
    string. *)
Definition get_project_data
    (storage : MemStorage.t) (id : string) (startDate endDate : option string)
    : Response :=
  let data :=
    if truthy startDate && truthy endDate then
      MemStorage.getSolarDataByDateRange storage id
        (match startDate with Some value => value | None => "" end)
        (match endDate with Some value => value | None => "" end)
    else MemStorage.getSolarDataForProject storage id in
  json (Data data).

End Routes.

(** ** client/src/components/Sidebar.tsx

    The caption that the sidebar renders under the efficiency factor. *)

Module Sidebar.

Definition efficiencyCaption (solarMetrics : SolarMetrics.t) : string :=
  if Js.gt (SolarMetrics.efficiency solarMetrics) 90 then "Excellent conditions"
  else "Good conditions".

End Sidebar.

(** ** The calculator in binary64

    The same methods with a [number] as the IEEE 754 double it is, every
    operation rounding as the source does, [NaN] and the infinities
    included.  It is the embedding to run the code on a concrete input and
    the one that can tell a [NaN]; [Math.pow(d, 2)] is taken as the correctly
    rounded square [d * d]. *)

Module Binary64.

Import Stdlib.Floats.FloatClass Stdlib.Floats.PrimFloat.
#[local] Open Scope float_scope.
#[local] Set Warnings "-inexact-float".

Module Js.

Definition record : Type := list (string * float).

(** [Object.values(o)]. *)
Definition Object_values (o : record) : list float := map snd o.

(** [a.length], as a number. *)
Definition length (a : list float) : float :=
  of_uint63 (Uint63.of_Z (Z.of_nat (List.length a))).

(** [a.reduce(f, init)]. *)
Definition reduce {A B : Type} (f : B -> A -> B) (init : B) (a : list A) : B :=
  fold_left f a init.

(** [Math.max(x, y)]: [NaN] when either argument is, and [+0] above [-0]. *)
Definition Math_max (x y : float) : float :=
  if is_nan x || is_nan y then nan
  else if x <? y then y
  else if y <? x then x
  else match classify x with
       | NZero => y
       | _ => x
       end.

(** [Math.min(x, y)]: [NaN] when either argument is, and [-0] below [+0]. *)
Definition Math_min (x y : float) : float :=
  if is_nan x || is_nan y then nan
  else if x <? y then x
  else if y <? x then y
  else match classify x with
       | NZero => x
       | _ => y
       end.

(** [Math.max(...a)], which is [-Infinity] for no argument. *)
Definition Math_max_spread (a : list float) : float :=
  fold_left Math_max a neg_infinity.

(** The comparisons [x > y], [x < y] and [x >= y]: each is [false] when an
    operand is [NaN]. *)
Definition gt (x y : float) : bool := y <? x.
Definition lt (x y : float) : bool := x <? y.
Definition ge (x y : float) : bool := y <=? x.

(** Truthiness of a number: every number but [0], [-0] and [NaN]. *)
Definition truthy (x : float) : bool := negb (is_zero x || is_nan x).

Definition push {A : Type} (a : list A) (s : A) : list A := a ++ [s].

End Js.

Module SolarMetrics.
Record t : Type := mk {
  dailyIrradiance : float;
  efficiency : float;
  temperature : float;
  peakOutput : float;
  averageOutput : float;
  variance : float
}.
End SolarMetrics.

Module MissionParameters.
Record t : Type := mk {
  panelArea : float;
  systemEfficiency : float;
  missionDuration : float;
  batteryCapacity : option float
}.
End MissionParameters.

Module CalculationResults.
Record t : Type := mk {
  totalEnergyOutput : float;
  dailyAverage : float;
  peakOutput : float;
  efficiency : float;
  batteryRequired : float;
  missionViability : bool;
  recommendations : list string
}.
End CalculationResults.

Module NASAPowerResponse.
Record parameter_t : Type := mk_parameter {
  ALLSKY_SFC_SW_DWN : Js.record;
  T2M : Js.record;
  RH2M : option Js.record;
  WS10M : option Js.record;
  CLOUD_AMT : option Js.record
}.
Record properties_t : Type := mk_properties { parameter : parameter_t }.
Record geometry_t : Type := mk_geometry { coordinates : float * float }.
Record t : Type := mk {
  geometry : geometry_t;
  properties : properties_t
}.
End NASAPowerResponse.

Module SolarCalculator.

Import Js.

(** [private static calculateVariance(values)]. *)
Definition calculateVariance (values : list float) : float :=
  let mean := reduce (fun sum val => sum + val) 0 values / length values in
  let squaredDiffs := map (fun val => (val - mean) * (val - mean)) values in
  sqrt (reduce (fun sum val => sum + val) 0 squaredDiffs / length values).

(** [static calculateMetrics(nasaData)]. *)
Definition calculateMetrics (nasaData : NASAPowerResponse.t) : SolarMetrics.t :=
  let irradianceData :=
    NASAPowerResponse.ALLSKY_SFC_SW_DWN
      (NASAPowerResponse.parameter (NASAPowerResponse.properties nasaData)) in
  let temperatureData :=
    NASAPowerResponse.T2M
      (NASAPowerResponse.parameter (NASAPowerResponse.properties nasaData)) in
  let irradianceValues := Object_values irradianceData in
  let temperatureValues := Object_values temperatureData in
  let dailyIrradiance :=
    reduce (fun sum val => sum + val) 0 irradianceValues / length irradianceValues in
  let temperature :=
    reduce (fun sum val => sum + val) 0 temperatureValues / length temperatureValues in
  let tempCoefficient := -0.004 in
  let referenceTemp := 25 in
  let tempLoss := Math_max 0 ((temperature - referenceTemp) * tempCoefficient) in
  let efficiency := Math_max 0.1 (1 + tempLoss) in
  let peakOutput := Math_max_spread irradianceValues in
  let averageOutput := dailyIrradiance in
  let variance := calculateVariance irradianceValues in
  {| SolarMetrics.dailyIrradiance := dailyIrradiance;
     SolarMetrics.efficiency := efficiency * 100;
     SolarMetrics.temperature := temperature;
     SolarMetrics.peakOutput := peakOutput;
     SolarMetrics.averageOutput := averageOutput;
     SolarMetrics.variance := variance |}.

(** [private static generateRecommendations(metrics, parameters,
    totalEnergy, batteryRequired)], with the messages of the source. *)
Definition generateRecommendations
    (metrics : SolarMetrics.t) (parameters : MissionParameters.t)
    (totalEnergy batteryRequired : float) : list string :=
  let recommendations : list string := [] in
  let recommendations :=
    if gt (SolarMetrics.dailyIrradiance metrics) 6.5 then
      push recommendations SolarCalculator.msgExcellent
    else if gt (SolarMetrics.dailyIrradiance metrics) 4.5 then
      push recommendations SolarCalculator.msgGood
    else
      push recommendations SolarCalculator.msgConsider in
  let recommendations :=
    if gt (SolarMetrics.temperature metrics) 35 then
      push recommendations SolarCalculator.msgHot
    else if lt (SolarMetrics.temperature metrics) (-20) then
      push recommendations SolarCalculator.msgCold
    else recommendations in
  let recommendations :=
    if gt batteryRequired 2000 then
      push recommendations SolarCalculator.msgBattery
    else recommendations in
  let recommendations :=
    if lt totalEnergy 1000 then
      push recommendations SolarCalculator.msgPanelArea
    else recommendations in
  let recommendations :=
    if lt (MissionParameters.systemEfficiency parameters) 0.20 then
      push recommendations SolarCalculator.msgUpgrade
    else recommendations in
  recommendations.

(** [static calculateMissionEnergy(metrics, parameters)]. *)
Definition calculateMissionEnergy
    (metrics : SolarMetrics.t) (parameters : MissionParameters.t)
    : CalculationResults.t :=
  let panelArea := MissionParameters.panelArea parameters in
  let systemEfficiency := MissionParameters.systemEfficiency parameters in
  let missionDuration := MissionParameters.missionDuration parameters in
  let dailyIrradiance := SolarMetrics.dailyIrradiance metrics in
  let efficiency := SolarMetrics.efficiency metrics in
  let dailyEnergyOutput :=
    dailyIrradiance * panelArea * systemEfficiency * (efficiency / 100) in
  let totalEnergyOutput := dailyEnergyOutput * missionDuration in
  let lunarNightHours := 350 in
  let dailyPowerConsumption := dailyEnergyOutput / 24 in
  let batteryRequired := dailyPowerConsumption * lunarNightHours in
  let minRequiredEnergy := 1000 in
  let missionViability := ge totalEnergyOutput minRequiredEnergy in
  let recommendations :=
    generateRecommendations metrics parameters totalEnergyOutput batteryRequired in
  {| CalculationResults.totalEnergyOutput := totalEnergyOutput;
     CalculationResults.dailyAverage := dailyEnergyOutput;
     CalculationResults.peakOutput :=
       SolarMetrics.peakOutput metrics * panelArea * systemEfficiency;
     CalculationResults.efficiency := efficiency;
     CalculationResults.batteryRequired := batteryRequired;
     CalculationResults.missionViability := missionViability;
     CalculationResults.recommendations := recommendations |}.

(** [static calculateOptimalTilt(latitude)]. *)
Definition calculateOptimalTilt (latitude : float) : float := abs latitude.

(** [static calculateSystemLosses(temperature, humidity?)]. *)
Definition calculateSystemLosses (temperature : float) (humidity : option float)
    : float :=
  let losses := 0.14 in
  let losses :=
    if gt temperature 35 then losses + 0.02
    else if lt temperature (-10) then losses + 0.01
    else losses in
  let losses :=
    if match humidity with
       | Some h => truthy h && gt h 80
       | None => false
       end
    then losses + 0.01
    else losses in
  Math_min losses 0.3.

End SolarCalculator.

(** A response carrying the two series that [calculateMetrics] reads. *)
Definition response (irradiance temperature : Js.record) : NASAPowerResponse.t :=
  {| NASAPowerResponse.geometry :=
       {| NASAPowerResponse.coordinates := (0, 0) |};
     NASAPowerResponse.properties :=
       {| NASAPowerResponse.parameter :=
            {| NASAPowerResponse.ALLSKY_SFC_SW_DWN := irradiance;
               NASAPowerResponse.T2M := temperature;
               NASAPowerResponse.RH2M := None;
               NASAPowerResponse.WS10M := None;
               NASAPowerResponse.CLOUD_AMT := None |} |} |}.


(** An empty series. *)
Definition noDay : NASAPowerResponse.t := response [] [].

End Binary64.

(** ** Inputs used in the examples *)

Module Sample.

(** A response carrying the two series that [calculateMetrics] reads. *)
Definition response (irradiance temperature : Js.record) : NASAPowerResponse.t :=
  {| NASAPowerResponse.geometry :=
       {| NASAPowerResponse.coordinates := (0, 0) |};
     NASAPowerResponse.properties :=
       {| NASAPowerResponse.parameter :=
            {| NASAPowerResponse.ALLSKY_SFC_SW_DWN := irradiance;
               NASAPowerResponse.T2M := temperature;
               NASAPowerResponse.RH2M := None;
               NASAPowerResponse.WS10M := None;
               NASAPowerResponse.CLOUD_AMT := None |} |} |}.

(** Three days, mean temperature 35 degrees. *)
Definition threeDays : NASAPowerResponse.t :=
  response [("d1", 5); ("d2", 6); ("d3", 7)]%string
           [("d1", 25); ("d2", 35); ("d3", 45)]%string.

(** One day at 15 degrees, below the reference temperature. *)
Definition coldDay : NASAPowerResponse.t :=
  response [("d1", 5)]%string [("d1", 15)]%string.

(** One day at 35 degrees, above the reference temperature. *)
Definition hotDay : NASAPowerResponse.t :=
  response [("d1", 5)]%string [("d1", 35)]%string.

End Sample.

(** ** Vocabulary of the statements *)

(** The series read by [calculateMetrics] both hold a reading. *)
Definition nonEmptySeries (nasaData : NASAPowerResponse.t) : Prop :=
  Js.Object_values
    (NASAPowerResponse.ALLSKY_SFC_SW_DWN
       (NASAPowerResponse.parameter (NASAPowerResponse.properties nasaData))) <> []
  /\ Js.Object_values
       (NASAPowerResponse.T2M
          (NASAPowerResponse.parameter (NASAPowerResponse.properties nasaData))) <> [].

(** [metrics] with its efficiency field replaced. *)
Definition withEfficiency (metrics : SolarMetrics.t) (efficiency : R) : SolarMetrics.t :=
  {| SolarMetrics.dailyIrradiance := SolarMetrics.dailyIrradiance metrics;
     SolarMetrics.efficiency := efficiency;
     SolarMetrics.temperature := SolarMetrics.temperature metrics;
     SolarMetrics.peakOutput := SolarMetrics.peakOutput metrics;
     SolarMetrics.averageOutput := SolarMetrics.averageOutput metrics;
     SolarMetrics.variance := SolarMetrics.variance metrics |}.

(** The three messages of the resource tier. *)
Definition tierMessage (s : string) : Prop :=
  s = SolarCalculator.msgExcellent
  \/ s = SolarCalculator.msgGood
  \/ s = SolarCalculator.msgConsider.

(** The advisory list as the specification words it: one list per rule, in
    the order of the rules, concatenated. *)
Definition advisoriesInOrder
    (metrics : SolarMetrics.t) (parameters : MissionParameters.t)
    (totalEnergy batteryRequired : R) : list string :=
  [ if Js.gt (SolarMetrics.dailyIrradiance metrics) 6.5 then
      SolarCalculator.msgExcellent
    else if Js.gt (SolarMetrics.dailyIrradiance metrics) 4.5 then
      SolarCalculator.msgGood
    else SolarCalculator.msgConsider ]
  ++ (if Js.gt (SolarMetrics.temperature metrics) 35 then [SolarCalculator.msgHot]
      else if Js.lt (SolarMetrics.temperature metrics) (-20) then
        [SolarCalculator.msgCold]
      else [])
  ++ (if Js.gt batteryRequired 2000 then [SolarCalculator.msgBattery] else [])
  ++ (if Js.lt totalEnergy 1000 then [SolarCalculator.msgPanelArea] else [])
  ++ (if Js.lt (MissionParameters.systemEfficiency parameters) 0.20 then
        [SolarCalculator.msgUpgrade]
      else []).

(** The irradiance readings of a response, as [calculateMetrics] enumerates
    them. *)
Definition irradianceReadings (nasaData : NASAPowerResponse.t) : list R :=
  Js.Object_values
    (NASAPowerResponse.ALLSKY_SFC_SW_DWN
       (NASAPowerResponse.parameter (NASAPowerResponse.properties nasaData))).


(** [parameters] with its panel area replaced. *)
Definition withPanelArea (parameters : MissionParameters.t) (panelArea : R)
    : MissionParameters.t :=
  {| MissionParameters.panelArea := panelArea;
     MissionParameters.systemEfficiency :=
       MissionParameters.systemEfficiency parameters;
     MissionParameters.missionDuration :=
       MissionParameters.missionDuration parameters;
     MissionParameters.batteryCapacity :=
       MissionParameters.batteryCapacity parameters |}.

(** ** Properties of the JavaScript primitives *)

Section JsFacts.

Import Js.

Lemma gt_true (x y : R) : gt x y = true <-> x > y.
Proof.
  unfold gt. destruct (Rgt_dec x y) as [H | H]; split; intro K;
    try reflexivity; try assumption; try discriminate; contradiction.
Qed.

Lemma gt_false (x y : R) : gt x y = false <-> x <= y.
Proof.
  unfold gt. destruct (Rgt_dec x y) as [H | H]; split; intro K;
    try reflexivity; try discriminate; lra.
Qed.

Lemma lt_true (x y : R) : lt x y = true <-> x < y.
Proof.
  unfold lt. destruct (Rlt_dec x y) as [H | H]; split; intro K;
    try reflexivity; try assumption; try discriminate; contradiction.
Qed.

Lemma lt_false (x y : R) : lt x y = false <-> y <= x.
Proof.
  unfold lt. destruct (Rlt_dec x y) as [H | H]; split; intro K;
    try reflexivity; try discriminate; lra.
Qed.

Lemma ge_true (x y : R) : ge x y = true <-> x >= y.
Proof.
  unfold ge. destruct (Rge_dec x y) as [H | H]; split; intro K;
    try reflexivity; try assumption; try discriminate; contradiction.
Qed.

Lemma ge_false (x y : R) : ge x y = false <-> x < y.
Proof.
  unfold ge. destruct (Rge_dec x y) as [H | H]; split; intro K;
    try reflexivity; try discriminate; lra.
Qed.

(** In a test [h && h > 80] the truthiness of [h] is subsumed by the
    comparison: a number above 80 is not [0]. *)
Lemma truthy_and_gt (h c : R) : 0 <= c -> truthy h && gt h c = gt h c.
Proof.
  intro Hc. unfold truthy. destruct (Req_dec_T h 0) as [E | E]; simpl.
  - symmetry. apply gt_false. lra.
  - reflexivity.
Qed.





(** The running maximum only grows. *)
Lemma fold_Rmax_ge_init (xs : list R) (m : R) : m <= fold_left Rmax xs m.
Proof.
  revert m. induction xs as [| y ys IH]; intro m; simpl.
  - lra.
  - apply Rle_trans with (Rmax m y); [apply Rmax_l | apply IH].
Qed.

Lemma fold_Rmax_ge_elem (xs : list R) (m x : R) :
  In x xs -> x <= fold_left Rmax xs m.
Proof.
  revert m. induction xs as [| y ys IH]; intros m Hin; simpl in *.
  - contradiction.
  - destruct Hin as [-> | Hin].
    + apply Rle_trans with (Rmax m x); [apply Rmax_r | apply fold_Rmax_ge_init].
    + apply IH; assumption.
Qed.

(** [Math.max(...a)] bounds every element of [a]. *)
Lemma Math_max_spread_ge (a : list R) (x : R) :
  In x a -> x <= Math_max_spread a.
Proof.
  destruct a as [| y ys]; simpl; [contradiction |].
  intros [-> | Hin].
  - apply fold_Rmax_ge_init.
  - apply fold_Rmax_ge_elem; assumption.
Qed.

(** [Math.max(...a)] is one of the elements of a non-empty [a]. *)
Lemma fold_Rmax_In (xs : list R) (m : R) :
  fold_left Rmax xs m = m \/ In (fold_left Rmax xs m) xs.
Proof.
  revert m. induction xs as [| y ys IH]; intro m; simpl.
  - left; reflexivity.
  - destruct (IH (Rmax m y)) as [E | Hin].
    + rewrite E. unfold Rmax. destruct (Rle_dec m y); auto.
    + right; right; assumption.
Qed.

Lemma Math_max_spread_In (a : list R) : a <> [] -> In (Math_max_spread a) a.
Proof.
  destruct a as [| y ys]; [contradiction |]. intros _. simpl.
  destruct (fold_Rmax_In ys y) as [E | Hin]; [left; auto | right; assumption].
Qed.



End JsFacts.

(** ** The metrics aggregator: [calculateMetrics] *)

Section Metrics.

Import Js SolarCalculator.

(** Unfolds [calculateMetrics] on a concrete response down to arithmetic. *)
Ltac run_metrics :=
  unfold calculateMetrics, calculateVariance, tempLoss, tempCoefficient,
    referenceTemp, reduce, length, Object_values; simpl.

(** Decides the [Rmax] and [Rmin] of the goal by comparing their
    arguments, innermost first. *)
Ltac split_minmax :=
  unfold Rmax, Rmin;
  repeat match goal with
  | |- context [Rle_dec ?a ?b] =>
      lazymatch a with
      | context [Rle_dec _ _] => fail
      | _ =>
          lazymatch b with
          | context [Rle_dec _ _] => fail
          | _ => destruct (Rle_dec a b)
          end
      end
  end.

Lemma tempLoss_nonneg (temperature : R) : 0 <= tempLoss temperature.
Proof. unfold tempLoss. apply Rmax_l. Qed.

(** At or below the reference the "loss" is the positive quantity
    0.004 per degree below 25. *)
Lemma tempLoss_below (temperature : R) :
  temperature <= 25 -> tempLoss temperature = (25 - temperature) * 0.004.
Proof.
  intro H. unfold tempLoss, referenceTemp, tempCoefficient.
  split_minmax; lra.
Qed.

(** At or above the reference the product is not positive and is clamped
    to zero. *)
Lemma tempLoss_above (temperature : R) :
  25 <= temperature -> tempLoss temperature = 0.
Proof.
  intro H. unfold tempLoss, referenceTemp, tempCoefficient.
  split_minmax; lra.
Qed.

(** The floor of 10 percent is below [1 + tempLoss]. *)
Lemma floor_inactive (temperature : R) :
  Rmax 0.1 (1 + tempLoss temperature) = 1 + tempLoss temperature.
Proof.
  pose proof (tempLoss_nonneg temperature) as H.
  apply Rmax_right. lra.
Qed.

(** The efficiency field in terms of the temperature field. *)
Lemma efficiency_of_temperature (nasaData : NASAPowerResponse.t) :
  SolarMetrics.efficiency (calculateMetrics nasaData)
  = Rmax 0.1 (1 + tempLoss (SolarMetrics.temperature (calculateMetrics nasaData)))
    * 100.
Proof. reflexivity. Qed.

(** What the sign of [tempCoefficient] under [Math.max(0, _)] amounts to, in
    exact arithmetic: at or above 25 degrees the efficiency is 100, and below
    it grows by 0.4 per degree. *)
Lemma efficiency_by_temperature (nasaData : NASAPowerResponse.t) :
  let metrics := calculateMetrics nasaData in
  (25 <= SolarMetrics.temperature metrics ->
   SolarMetrics.efficiency metrics = 100)
  /\ (SolarMetrics.temperature metrics <= 25 ->
      SolarMetrics.efficiency metrics
      = 100 + 0.4 * (25 - SolarMetrics.temperature metrics)).
Proof.
  intro metrics. unfold metrics at 2 4.
  rewrite efficiency_of_temperature, floor_inactive. fold metrics.
  split; intro H.
  - rewrite tempLoss_above by assumption. lra.
  - rewrite tempLoss_below by assumption. lra.
Qed.

(** C3.  For a non-empty series the returned efficiency is at least 100:
    [tempLoss] is never negative, it is positive exactly when the mean
    temperature is below 25, and the floor [Math.max(0.1, 1 + tempLoss)]
    returns [1 + tempLoss], so the efficiency is [(1 + tempLoss) * 100]. *)
Theorem efficiency_at_least_100 (nasaData : NASAPowerResponse.t) :
  nonEmptySeries nasaData ->
  let metrics := calculateMetrics nasaData in
  let loss := tempLoss (SolarMetrics.temperature metrics) in
  SolarMetrics.efficiency metrics >= 100
  /\ 0 <= loss
  /\ (0 < loss <-> SolarMetrics.temperature metrics < 25)
  /\ Rmax 0.1 (1 + loss) = 1 + loss
  /\ SolarMetrics.efficiency metrics = (1 + loss) * 100.
Proof.
  intros _ metrics loss.
  assert (Hnn : 0 <= loss) by apply tempLoss_nonneg.
  assert (Hfl : Rmax 0.1 (1 + loss) = 1 + loss) by apply floor_inactive.
  assert (Heff : SolarMetrics.efficiency metrics = (1 + loss) * 100).
  { unfold metrics at 1. rewrite efficiency_of_temperature.
    fold metrics. fold loss. rewrite Hfl. reflexivity. }
  repeat split; try assumption.
  - rewrite Heff. lra.
  - intro Hpos.
    destruct (Rlt_le_dec (SolarMetrics.temperature metrics) 25) as [Hlt | Hge];
      [assumption |].
    unfold loss in Hpos. rewrite tempLoss_above in Hpos by assumption. lra.
  - intro Hlt. unfold loss. rewrite tempLoss_below by lra. lra.
Qed.

Lemma efficiency_at_least_100_witness :
  nonEmptySeries Sample.coldDay
  /\ SolarMetrics.efficiency (calculateMetrics Sample.coldDay) >= 100.
Proof.
  assert (H : nonEmptySeries Sample.coldDay)
    by (split; simpl; discriminate).
  split; [exact H |].
  exact (proj1 (efficiency_at_least_100 Sample.coldDay H)).
Defined.

(** C1.  One reading at 15 degrees: the returned efficiency is 104, which
    is outside the interval from 10 to 100. *)
Theorem efficiency_cold_day_exceeds_100 :
  nonEmptySeries Sample.coldDay
  /\ SolarMetrics.efficiency (calculateMetrics Sample.coldDay) = 104
  /\ ~ (10 <= SolarMetrics.efficiency (calculateMetrics Sample.coldDay) <= 100).
Proof.
  assert (E : SolarMetrics.efficiency (calculateMetrics Sample.coldDay) = 104).
  { run_metrics. split_minmax; lra. }
  split; [split; simpl; discriminate |].
  split; [exact E |].
  rewrite E. lra.
Qed.

(** C2.  A mean temperature of 35 degrees, above the reference, leaves the
    efficiency at 100 instead of reducing it, and a mean temperature of 15
    degrees, below the reference, raises it to 104 instead of leaving it
    at 100. *)
Theorem efficiency_sign_inverted :
  (SolarMetrics.temperature (calculateMetrics Sample.hotDay) = 35
   /\ SolarMetrics.efficiency (calculateMetrics Sample.hotDay) = 100)
  /\ (SolarMetrics.temperature (calculateMetrics Sample.coldDay) = 15
      /\ SolarMetrics.efficiency (calculateMetrics Sample.coldDay) = 104).
Proof.
  repeat split; run_metrics; split_minmax; lra.
Qed.

(** A square root is located by squaring the bounds. *)
Lemma sqrt_between (x lo hi : R) :
  0 <= lo -> lo * lo < x -> x < hi * hi -> 0 <= hi -> lo < sqrt x < hi.
Proof.
  intros Hlo Hl Hh Hhi. split.
  - rewrite <- (sqrt_square lo) by assumption.
    apply sqrt_lt_1_alt. split; [apply Rmult_le_pos; assumption | assumption].
  - rewrite <- (sqrt_square hi) by assumption.
    apply sqrt_lt_1_alt. split; [| assumption].
    apply Rle_trans with (lo * lo); [apply Rmult_le_pos; assumption | lra].
Qed.

(** C4.  The worked example of the aggregation: irradiance 5, 6, 7 and
    temperature 25, 35, 45 give mean irradiance 6, mean temperature 35,
    peak 7, average output 6 and a "variance" that is the population
    standard deviation, the square root of 2/3, about 0.8165; the clamped
    [tempLoss] at 35 degrees is 0. *)
Theorem worked_example_aggregation :
  let metrics := calculateMetrics Sample.threeDays in
  SolarMetrics.dailyIrradiance metrics = 6
  /\ SolarMetrics.temperature metrics = 35
  /\ SolarMetrics.peakOutput metrics = 7
  /\ SolarMetrics.averageOutput metrics = 6
  /\ SolarMetrics.variance metrics = sqrt (2 / 3)
  /\ 0.81645 < SolarMetrics.variance metrics < 0.81655
  /\ tempLoss (SolarMetrics.temperature metrics) = 0
  /\ Rmax 0 ((35 - 25) * -0.004) = 0.
Proof.
  intro metrics.
  assert (Hd : SolarMetrics.dailyIrradiance metrics = 6)
    by (unfold metrics; run_metrics; lra).
  assert (Ht : SolarMetrics.temperature metrics = 35)
    by (unfold metrics; run_metrics; lra).
  assert (Hv : SolarMetrics.variance metrics = sqrt (2 / 3)).
  { unfold metrics. run_metrics. apply f_equal. field. }
  repeat split.
  - exact Hd.
  - exact Ht.
  - unfold metrics. run_metrics. split_minmax; lra.
  - exact Hd.
  - exact Hv.
  - rewrite Hv. apply (sqrt_between (2 / 3) 0.81645 0.81655); lra.
  - rewrite Hv. apply (sqrt_between (2 / 3) 0.81645 0.81655); lra.
  - rewrite Ht. apply tempLoss_above. lra.
  - split_minmax; lra.
Qed.




End Metrics.

(** ** The mission energy estimator: [calculateMissionEnergy] *)

Section Mission.

Import Js SolarCalculator.

(** Rewrites the comparisons whose outcome follows from the context. *)
Ltac decide_tests :=
  repeat match goal with
  | |- context [gt ?x ?y] =>
      first [ rewrite (proj2 (gt_true x y)) by lra
            | rewrite (proj2 (gt_false x y)) by lra ]
  | |- context [lt ?x ?y] =>
      first [ rewrite (proj2 (lt_true x y)) by lra
            | rewrite (proj2 (lt_false x y)) by lra ]
  | |- context [ge ?x ?y] =>
      first [ rewrite (proj2 (ge_true x y)) by lra
            | rewrite (proj2 (ge_false x y)) by lra ]
  end.

(** The array built by the successive [push]es is the concatenation, rule
    by rule, of what each rule contributes. *)
Lemma generateRecommendations_in_order
    (metrics : SolarMetrics.t) (parameters : MissionParameters.t)
    (totalEnergy batteryRequired : R) :
  generateRecommendations metrics parameters totalEnergy batteryRequired
  = advisoriesInOrder metrics parameters totalEnergy batteryRequired.
Proof.
  unfold generateRecommendations, advisoriesInOrder, push.
  destruct (gt (SolarMetrics.dailyIrradiance metrics) 6.5),
           (gt (SolarMetrics.dailyIrradiance metrics) 4.5),
           (gt (SolarMetrics.temperature metrics) 35),
           (lt (SolarMetrics.temperature metrics) (-20)),
           (gt batteryRequired 2000),
           (lt totalEnergy 1000),
           (lt (MissionParameters.systemEfficiency parameters) 0.20);
    reflexivity.
Qed.

Lemma recommendations_in_order
    (metrics : SolarMetrics.t) (parameters : MissionParameters.t) :
  CalculationResults.recommendations (calculateMissionEnergy metrics parameters)
  = advisoriesInOrder metrics parameters
      (CalculationResults.totalEnergyOutput
         (calculateMissionEnergy metrics parameters))
      (CalculationResults.batteryRequired
         (calculateMissionEnergy metrics parameters)).
Proof. apply generateRecommendations_in_order. Qed.

(** C5.  The estimator's daily average, total energy, battery requirement
    and viability verdict follow the four formulas, and on the worked
    example (irradiance 6, efficiency 90, area 100, system efficiency 0.22,
    14 days) they are 118.8, 1663.2, 1732.5 and viable. *)
Theorem mission_energy_formulas :
  (forall (metrics : SolarMetrics.t) (parameters : MissionParameters.t),
     let results := calculateMissionEnergy metrics parameters in
     CalculationResults.dailyAverage results
     = SolarMetrics.dailyIrradiance metrics
       * MissionParameters.panelArea parameters
       * MissionParameters.systemEfficiency parameters
       * (SolarMetrics.efficiency metrics / 100)
     /\ CalculationResults.totalEnergyOutput results
        = CalculationResults.dailyAverage results
          * MissionParameters.missionDuration parameters
     /\ CalculationResults.batteryRequired results
        = CalculationResults.dailyAverage results / 24 * 350
     /\ (CalculationResults.missionViability results = true
         <-> CalculationResults.totalEnergyOutput results >= 1000)
     /\ (CalculationResults.missionViability results = false
         <-> CalculationResults.totalEnergyOutput results < 1000))
  /\ (forall (temperature peakOutput averageOutput variance : R)
             (batteryCapacity : option R),
        let results :=
          calculateMissionEnergy
            (SolarMetrics.mk 6 90 temperature peakOutput averageOutput variance)
            (MissionParameters.mk 100 0.22 14 batteryCapacity) in
        CalculationResults.dailyAverage results = 118.8
        /\ CalculationResults.totalEnergyOutput results = 1663.2
        /\ CalculationResults.missionViability results = true
        /\ CalculationResults.batteryRequired results = 1732.5).
Proof.
  split.
  - intros metrics parameters results.
    repeat split; try reflexivity.
    + apply ge_true.
    + apply ge_true.
    + apply ge_false.
    + apply ge_false.
  - intros temperature peakOutput averageOutput variance batteryCapacity results.
    unfold results, calculateMissionEnergy; simpl.
    repeat split; try lra.
    apply ge_true. lra.
Qed.

(** C6.  The peak output of the results is the peak of the metrics times
    panel area times system efficiency: it does not change with the
    efficiency of the metrics, while the daily average is proportional
    to it. *)
Theorem peak_output_ignores_efficiency
    (metrics : SolarMetrics.t) (parameters : MissionParameters.t) :
  CalculationResults.peakOutput (calculateMissionEnergy metrics parameters)
  = SolarMetrics.peakOutput metrics
    * MissionParameters.panelArea parameters
    * MissionParameters.systemEfficiency parameters
  /\ (forall efficiency : R,
        CalculationResults.peakOutput
          (calculateMissionEnergy (withEfficiency metrics efficiency) parameters)
        = CalculationResults.peakOutput (calculateMissionEnergy metrics parameters))
  /\ (forall efficiency : R,
        CalculationResults.dailyAverage
          (calculateMissionEnergy (withEfficiency metrics efficiency) parameters)
        = SolarMetrics.dailyIrradiance metrics
          * MissionParameters.panelArea parameters
          * MissionParameters.systemEfficiency parameters
          * (efficiency / 100)).
Proof.
  repeat split; intros; reflexivity.
Qed.

(** C7.  At a mean irradiance of exactly 6.5 the first recommendation is
    the "good resource" message, and at exactly 4.5 it is the "consider
    high-efficiency panels or backup" message: both comparisons are
    strict. *)
Theorem tier_boundaries_select_lower_tier
    (efficiency temperature peakOutput averageOutput variance : R)
    (parameters : MissionParameters.t) :
  hd_error
    (CalculationResults.recommendations
       (calculateMissionEnergy
          (SolarMetrics.mk 6.5 efficiency temperature peakOutput averageOutput
             variance)
          parameters))
  = Some msgGood
  /\ msgGood <> msgExcellent
  /\ hd_error
       (CalculationResults.recommendations
          (calculateMissionEnergy
             (SolarMetrics.mk 4.5 efficiency temperature peakOutput averageOutput
                variance)
             parameters))
     = Some msgConsider
  /\ msgConsider <> msgGood.
Proof.
  repeat split; try discriminate.
  - rewrite recommendations_in_order. unfold advisoriesInOrder. simpl.
    decide_tests. reflexivity.
  - rewrite recommendations_in_order. unfold advisoriesInOrder. simpl.
    decide_tests. reflexivity.
Qed.

(** Every list of advisories starts with one tier message and holds no
    other. *)
Lemma advisoriesInOrder_tier_first
    (metrics : SolarMetrics.t) (parameters : MissionParameters.t)
    (totalEnergy batteryRequired : R) :
  exists (first : string) (rest : list string),
    advisoriesInOrder metrics parameters totalEnergy batteryRequired
    = first :: rest
    /\ tierMessage first
    /\ (forall s : string, In s rest -> ~ tierMessage s).
Proof.
  unfold advisoriesInOrder, tierMessage.
  destruct (gt (SolarMetrics.dailyIrradiance metrics) 6.5),
           (gt (SolarMetrics.dailyIrradiance metrics) 4.5),
           (gt (SolarMetrics.temperature metrics) 35),
           (lt (SolarMetrics.temperature metrics) (-20)),
           (gt batteryRequired 2000),
           (lt totalEnergy 1000),
           (lt (MissionParameters.systemEfficiency parameters) 0.20);
    simpl; eexists; eexists; (split; [reflexivity |]); (split; [tauto |]);
    intros s Hin [E | [E | E]]; subst s; simpl in Hin;
    repeat (destruct Hin as [Hin | Hin]; [discriminate Hin |]);
    exact Hin.
Qed.

(** C8.  On an input that triggers several advisories (irradiance 3,
    temperature 40, system efficiency 0.15, battery requirement above 2000)
    the list is: the tier message, the temperature message, the battery
    message, the panel-area message when the total energy is below 1000,
    and the efficiency-upgrade message, in this order.  On every input the
    list is the concatenation of the five rules in their fixed order, and
    it starts with one tier message and holds no other. *)
Theorem advisories_in_fixed_order
    (metrics : SolarMetrics.t) (parameters : MissionParameters.t) :
  let results := calculateMissionEnergy metrics parameters in
  (SolarMetrics.dailyIrradiance metrics = 3 ->
   SolarMetrics.temperature metrics = 40 ->
   MissionParameters.systemEfficiency parameters = 0.15 ->
   CalculationResults.batteryRequired results > 2000 ->
   CalculationResults.recommendations results
   = [msgConsider; msgHot; msgBattery]
     ++ (if lt (CalculationResults.totalEnergyOutput results) 1000
         then [msgPanelArea] else [])
     ++ [msgUpgrade])
  /\ CalculationResults.recommendations results
     = advisoriesInOrder metrics parameters
         (CalculationResults.totalEnergyOutput results)
         (CalculationResults.batteryRequired results)
  /\ (exists (first : string) (rest : list string),
        CalculationResults.recommendations results = first :: rest
        /\ tierMessage first
        /\ (forall s : string, In s rest -> ~ tierMessage s)).
Proof.
  intro results. split; [| split].
  - intros Hirr Htemp Heff Hbat.
    unfold results. rewrite recommendations_in_order. fold results.
    unfold advisoriesInOrder. rewrite Hirr, Htemp, Heff.
    decide_tests. reflexivity.
  - apply recommendations_in_order.
  - unfold results. rewrite recommendations_in_order.
    apply advisoriesInOrder_tier_first.
Qed.

Lemma advisories_in_fixed_order_witness :
  CalculationResults.recommendations
    (calculateMissionEnergy
       (SolarMetrics.mk 3 100 40 4 3 1)
       (MissionParameters.mk 400 0.15 5 None))
  = [msgConsider; msgHot; msgBattery; msgPanelArea; msgUpgrade].
Proof.
  transitivity
    ([msgConsider; msgHot; msgBattery]
     ++ (if lt (CalculationResults.totalEnergyOutput
                  (calculateMissionEnergy
                     (SolarMetrics.mk 3 100 40 4 3 1)
                     (MissionParameters.mk 400 0.15 5 None))) 1000
         then [msgPanelArea] else [])
     ++ [msgUpgrade]).
  - apply (proj1 (advisories_in_fixed_order
                    (SolarMetrics.mk 3 100 40 4 3 1)
                    (MissionParameters.mk 400 0.15 5 None)));
      [reflexivity | reflexivity | reflexivity | simpl; lra].
  - simpl. decide_tests. reflexivity.
Defined.

End Mission.

(** ** The auxiliary functions *)

Section Auxiliary.

Import Js SolarCalculator.

(** C10.  The system losses are 0.14, plus 0.02 above 35 degrees, plus 0.01
    below -10 degrees (the two cannot hold together), plus 0.01 when a
    humidity above 80 is given; the result never exceeds 0.30. *)
Theorem system_losses_formula (temperature : R) (humidity : option R) :
  calculateSystemLosses temperature humidity
  = 0.14
    + (if gt temperature 35 then 0.02 else 0)
    + (if lt temperature (-10) then 0.01 else 0)
    + match humidity with
      | Some h => if gt h 80 then 0.01 else 0
      | None => 0
      end
  /\ ~ (temperature > 35 /\ temperature < -10)
  /\ calculateSystemLosses temperature humidity <= 0.30.
Proof.
  assert (Hhum :
    match humidity with
    | Some h => truthy h && gt h 80
    | None => false
    end
    = match humidity with Some h => gt h 80 | None => false end).
  { destruct humidity as [h |]; [apply truthy_and_gt; lra | reflexivity]. }
  unfold calculateSystemLosses. rewrite Hhum.
  destruct (gt temperature 35) eqn:Hhot.
  - apply gt_true in Hhot.
    rewrite (proj2 (lt_false temperature (-10))) by lra.
    destruct humidity as [h |]; [destruct (gt h 80) |];
      (repeat split; [| lra |]); unfold Rmin;
      match goal with |- context [Rle_dec ?a ?b] => destruct (Rle_dec a b) end;
      lra.
  - apply gt_false in Hhot.
    destruct (lt temperature (-10)) eqn:Hcold;
      (destruct humidity as [h |]; [destruct (gt h 80) |]);
      (repeat split; [| lra |]); unfold Rmin;
      match goal with |- context [Rle_dec ?a ?b] => destruct (Rle_dec a b) end;
      lra.
Qed.

End Auxiliary.


(** ** More on [calculateMetrics] *)

Section MetricsExtra.

Import Js SolarCalculator.

Ltac eval_metrics :=
  unfold calculateMetrics, calculateVariance, tempLoss, tempCoefficient,
    referenceTemp, reduce, length, Object_values; simpl.

(** X2.  The peak of a non-empty series is one of its readings and no reading
    exceeds it. *)
Theorem peak_is_largest_reading (nasaData : NASAPowerResponse.t) :
  irradianceReadings nasaData <> [] ->
  In (SolarMetrics.peakOutput (calculateMetrics nasaData))
     (irradianceReadings nasaData)
  /\ (forall x : R, In x (irradianceReadings nasaData) ->
       x <= SolarMetrics.peakOutput (calculateMetrics nasaData)).
Proof.
  intro Hne. split.
  - apply Math_max_spread_In. exact Hne.
  - intros x Hx. apply Math_max_spread_ge. exact Hx.
Qed.

Lemma peak_is_largest_reading_witness :
  In (SolarMetrics.peakOutput (calculateMetrics Sample.threeDays)) [5; 6; 7].
Proof.
  apply (proj1 (peak_is_largest_reading Sample.threeDays ltac:(discriminate))).
Defined.

(** X6.  When the mean temperature of a non-empty series is 25 degrees or more,
    the clamped [tempLoss] is 0 and the efficiency is exactly 100: nothing is
    taken off above the reference temperature. *)
Theorem efficiency_is_100_from_25 (nasaData : NASAPowerResponse.t) :
  nonEmptySeries nasaData ->
  25 <= SolarMetrics.temperature (calculateMetrics nasaData) ->
  tempLoss (SolarMetrics.temperature (calculateMetrics nasaData)) = 0
  /\ SolarMetrics.efficiency (calculateMetrics nasaData) = 100.
Proof.
  intros _ Hwarm.
  assert (Hloss : tempLoss (SolarMetrics.temperature (calculateMetrics nasaData)) = 0)
    by (apply tempLoss_above; exact Hwarm).
  split; [exact Hloss |].
  rewrite efficiency_of_temperature, floor_inactive, Hloss. lra.
Qed.

Lemma efficiency_is_100_from_25_witness :
  SolarMetrics.efficiency (calculateMetrics Sample.hotDay) = 100.
Proof.
  apply (proj2 (efficiency_is_100_from_25 Sample.hotDay
                  ltac:(split; discriminate) ltac:(eval_metrics; lra))).
Defined.

End MetricsExtra.

(** ** More on [calculateMissionEnergy] and the auxiliary functions *)

Section MissionExtra.

Import Js SolarCalculator.

Ltac split_tests metrics parameters totalEnergy batteryRequired :=
  destruct (gt (SolarMetrics.dailyIrradiance metrics) 6.5),
           (gt (SolarMetrics.dailyIrradiance metrics) 4.5),
           (gt (SolarMetrics.temperature metrics) 35),
           (lt (SolarMetrics.temperature metrics) (-20)),
           (gt batteryRequired 2000),
           (lt totalEnergy 1000) eqn:Hlow,
           (lt (MissionParameters.systemEfficiency parameters) 0.20).

(** X8.  The list holds between one and five advisories, none twice, and never
    both temperature advisories. *)
Theorem recommendations_shape
    (metrics : SolarMetrics.t) (parameters : MissionParameters.t) :
  let recommendations :=
    CalculationResults.recommendations (calculateMissionEnergy metrics parameters) in
  (1 <= List.length recommendations <= 5)%nat
  /\ NoDup recommendations
  /\ ~ (In msgHot recommendations /\ In msgCold recommendations).
Proof.
  intro recommendations. unfold recommendations.
  rewrite recommendations_in_order. unfold advisoriesInOrder.
  split_tests metrics parameters
    (CalculationResults.totalEnergyOutput (calculateMissionEnergy metrics parameters))
    (CalculationResults.batteryRequired (calculateMissionEnergy metrics parameters));
    simpl; (split; [lia |]); split;
    try (repeat constructor; simpl; intuition discriminate);
    intros [Hh Hc]; simpl in Hh, Hc;
    intuition discriminate.
Qed.

(** X9.  With a non-negative irradiance, efficiency, system efficiency and
    duration, a mission that is viable stays viable when only the panel area
    is made larger. *)
Theorem viability_grows_with_panel_area
    (metrics : SolarMetrics.t) (parameters : MissionParameters.t) (area : R) :
  0 <= SolarMetrics.dailyIrradiance metrics ->
  0 <= SolarMetrics.efficiency metrics ->
  0 <= MissionParameters.systemEfficiency parameters ->
  0 <= MissionParameters.missionDuration parameters ->
  MissionParameters.panelArea parameters <= area ->
  CalculationResults.missionViability (calculateMissionEnergy metrics parameters)
  = true ->
  CalculationResults.missionViability
    (calculateMissionEnergy metrics (withPanelArea parameters area)) = true.
Proof.
  intros Hd He Hs Hm Ha Hv.
  set (perSquareMetre :=
    SolarMetrics.dailyIrradiance metrics
    * MissionParameters.systemEfficiency parameters
    * (SolarMetrics.efficiency metrics / 100)
    * MissionParameters.missionDuration parameters).
  assert (Hp : 0 <= perSquareMetre).
  { unfold perSquareMetre.
    apply Rmult_le_pos; [apply Rmult_le_pos; [apply Rmult_le_pos |] |];
      try assumption; lra. }
  assert (Htot :
    CalculationResults.totalEnergyOutput
      (calculateMissionEnergy metrics (withPanelArea parameters area))
    = perSquareMetre * area)
    by (unfold calculateMissionEnergy, perSquareMetre; simpl; ring).
  assert (Htot0 :
    CalculationResults.totalEnergyOutput (calculateMissionEnergy metrics parameters)
    = perSquareMetre * MissionParameters.panelArea parameters)
    by (unfold calculateMissionEnergy, perSquareMetre; simpl; ring).
  change (ge (CalculationResults.totalEnergyOutput
                (calculateMissionEnergy metrics parameters)) 1000 = true) in Hv.
  apply ge_true in Hv. rewrite Htot0 in Hv.
  change (ge (CalculationResults.totalEnergyOutput
                (calculateMissionEnergy metrics (withPanelArea parameters area)))
             1000 = true).
  apply ge_true. rewrite Htot. nra.
Qed.

Lemma viability_grows_with_panel_area_witness :
  CalculationResults.missionViability
    (calculateMissionEnergy
       (SolarMetrics.mk 6 100 25 7 6 1)
       (withPanelArea (MissionParameters.mk 100 0.22 14 None) 200))
  = true.
Proof.
  apply (viability_grows_with_panel_area
           (SolarMetrics.mk 6 100 25 7 6 1)
           (MissionParameters.mk 100 0.22 14 None) 200
           ltac:(simpl; lra) ltac:(simpl; lra) ltac:(simpl; lra)
           ltac:(simpl; lra) ltac:(simpl; lra)).
  apply ge_true. simpl. lra.
Defined.

(** The efficiency of the metrics is at least 100. *)
Lemma efficiency_ge_100 (nasaData : NASAPowerResponse.t) :
  100 <= SolarMetrics.efficiency (calculateMetrics nasaData).
Proof.
  rewrite efficiency_of_temperature, floor_inactive.
  pose proof (tempLoss_nonneg (SolarMetrics.temperature (calculateMetrics nasaData))).
  lra.
Qed.

(** X11.  The system losses are between 0.14 and 0.17, so the cap of 0.3 never
    changes the result; and a humidity of 0 counts like no humidity. *)
Theorem system_losses_range (temperature : R) (humidity : option R) :
  0.14 <= calculateSystemLosses temperature humidity <= 0.17
  /\ calculateSystemLosses temperature (Some 0)
     = calculateSystemLosses temperature None.
Proof.
  split.
  - unfold calculateSystemLosses.
    destruct (gt temperature 35), (lt temperature (-10));
      (destruct humidity as [h |]; [destruct (truthy h && gt h 80) |]);
      unfold Rmin;
      match goal with |- context [Rle_dec ?a ?b] => destruct (Rle_dec a b) end;
      lra.
  - unfold calculateSystemLosses, truthy.
    destruct (Req_dec_T 0 0) as [_ | N]; [reflexivity | contradiction N; reflexivity].
Qed.

(** X12.  The optimal tilt is the same for a latitude and for its mirror image in
    the other hemisphere, and for a latitude between -90 and 90 it lies
    between 0 and 90. *)
Theorem optimal_tilt_range (latitude : R) :
  calculateOptimalTilt (- latitude) = calculateOptimalTilt latitude
  /\ 0 <= calculateOptimalTilt latitude
  /\ (-90 <= latitude <= 90 -> calculateOptimalTilt latitude <= 90).
Proof.
  unfold calculateOptimalTilt. repeat split.
  - apply Rabs_Ropp.
  - apply Rabs_pos.
  - intros [Hl Hu]. apply Rabs_le. lra.
Qed.

Lemma optimal_tilt_range_witness : calculateOptimalTilt (-89.5) <= 90.
Proof.
  apply (proj2 (proj2 (optimal_tilt_range (-89.5)))). lra.
Defined.

End MissionExtra.

(** ** The [Map] operations *)

Section JsMapFacts.

Context {V : Type}.

Lemma JsMap_get_set_same (m : JsMap.t V) (key : string) (value : V) :
  JsMap.get (JsMap.set m key value) key = Some value.
Proof.
  induction m as [| [k v] rest IH]; simpl.
  - rewrite String.eqb_refl. reflexivity.
  - destruct (String.eqb k key) eqn:E; simpl; rewrite E; [reflexivity | exact IH].
Qed.

Lemma JsMap_get_set_other (m : JsMap.t V) (key other : string) (value : V) :
  key <> other ->
  JsMap.get (JsMap.set m key value) other = JsMap.get m other.
Proof.
  intro Hne. induction m as [| [k v] rest IH]; simpl.
  - rewrite (proj2 (String.eqb_neq key other) Hne). reflexivity.
  - destruct (String.eqb k key) eqn:E; simpl.
    + apply String.eqb_eq in E. subst k.
      rewrite (proj2 (String.eqb_neq key other) Hne). reflexivity.
    + destruct (String.eqb k other); [reflexivity | exact IH].
Qed.

Lemma JsMap_get_None_keys (m : JsMap.t V) (key : string) :
  JsMap.get m key = None <-> ~ In key (JsMap.keys m).
Proof.
  induction m as [| [k v] rest IH]; simpl.
  - tauto.
  - destruct (String.eqb k key) eqn:E.
    + apply String.eqb_eq in E. split; [discriminate | intro H; exfalso; auto].
    + apply String.eqb_neq in E. rewrite IH. tauto.
Qed.

Lemma JsMap_get_In_values (m : JsMap.t V) (key : string) (value : V) :
  JsMap.get m key = Some value -> In value (JsMap.values m).
Proof.
  induction m as [| [k v] rest IH]; simpl.
  - discriminate.
  - destruct (String.eqb k key).
    + intro H. injection H as ->. left; reflexivity.
    + intro H. right. apply IH. exact H.
Qed.

(** [set] on an absent key appends the entry. *)
Lemma JsMap_set_fresh (m : JsMap.t V) (key : string) (value : V) :
  JsMap.get m key = None -> JsMap.set m key value = m ++ [(key, value)].
Proof.
  induction m as [| [k v] rest IH]; simpl.
  - reflexivity.
  - destruct (String.eqb k key); [discriminate |].
    intro H. rewrite (IH H). reflexivity.
Qed.

(** [set] on a present key leaves the keys, and their order, as they were. *)
Lemma JsMap_keys_set_present (m : JsMap.t V) (key : string) (value old : V) :
  JsMap.get m key = Some old -> JsMap.keys (JsMap.set m key value) = JsMap.keys m.
Proof.
  induction m as [| [k v] rest IH]; simpl.
  - discriminate.
  - destruct (String.eqb k key); simpl; [reflexivity |].
    intro H. unfold JsMap.keys in *. simpl. f_equal. apply IH. exact H.
Qed.

Lemma JsMap_wellFormed_set (m : JsMap.t V) (key : string) (value : V) :
  JsMap.wellFormed m -> JsMap.wellFormed (JsMap.set m key value).
Proof.
  unfold JsMap.wellFormed. intro Hwf.
  destruct (JsMap.get m key) as [old |] eqn:E.
  - rewrite (JsMap_keys_set_present m key value old E). exact Hwf.
  - rewrite (JsMap_set_fresh m key value E).
    unfold JsMap.keys. rewrite map_app. simpl.
    apply NoDup_app; [exact Hwf | repeat constructor; simpl; tauto |].
    intros k Hk [Ek | []]. subst k.
    apply (proj1 (JsMap_get_None_keys m key) E). exact Hk.
Qed.

(** [delete] answers whether the key was present. *)
Lemma JsMap_delete_found (m : JsMap.t V) (key : string) :
  fst (JsMap.delete m key) = true <-> JsMap.get m key <> None.
Proof.
  induction m as [| [k v] rest IH]; simpl.
  - split; [discriminate | intro H; contradiction H; reflexivity].
  - destruct (String.eqb k key); simpl.
    + split; [discriminate | reflexivity].
    + destruct (JsMap.delete rest key) as [found rest']. exact IH.
Qed.

Lemma JsMap_delete_absent (m : JsMap.t V) (key : string) :
  JsMap.get m key = None -> JsMap.delete m key = (false, m).
Proof.
  induction m as [| [k v] rest IH]; simpl.
  - reflexivity.
  - destruct (String.eqb k key); [discriminate |].
    intro H. rewrite (IH H). reflexivity.
Qed.

Lemma JsMap_keys_delete_incl (m : JsMap.t V) (key k : string) :
  In k (JsMap.keys (snd (JsMap.delete m key))) -> In k (JsMap.keys m).
Proof.
  induction m as [| [k' v] rest IH]; simpl.
  - tauto.
  - destruct (String.eqb k' key); simpl.
    + tauto.
    + destruct (JsMap.delete rest key) as [found rest']. simpl in *.
      intros [H | H]; [left; exact H | right; apply IH; exact H].
Qed.

Lemma JsMap_wellFormed_delete (m : JsMap.t V) (key : string) :
  JsMap.wellFormed m -> JsMap.wellFormed (snd (JsMap.delete m key)).
Proof.
  unfold JsMap.wellFormed.
  induction m as [| [k v] rest IH]; simpl; intro Hwf.
  - constructor.
  - inversion Hwf as [| ? ? Hnotin Hrest]; subst.
    destruct (String.eqb k key); simpl; [exact Hrest |].
    pose proof (JsMap_keys_delete_incl rest key k) as Hincl.
    specialize (IH Hrest).
    destruct (JsMap.delete rest key) as [found rest']. simpl in *.
    constructor; [intro H; apply Hnotin, Hincl, H | exact IH].
Qed.

Lemma JsMap_get_delete_same (m : JsMap.t V) (key : string) :
  JsMap.wellFormed m -> JsMap.get (snd (JsMap.delete m key)) key = None.
Proof.
  unfold JsMap.wellFormed.
  induction m as [| [k v] rest IH]; simpl; intro Hwf.
  - reflexivity.
  - inversion Hwf as [| ? ? Hnotin Hrest]; subst.
    destruct (String.eqb k key) eqn:E; simpl.
    + apply String.eqb_eq in E. subst k.
      apply JsMap_get_None_keys. exact Hnotin.
    + specialize (IH Hrest).
      destruct (JsMap.delete rest key) as [found rest']. simpl in *.
      rewrite E. exact IH.
Qed.

Lemma JsMap_get_delete_other (m : JsMap.t V) (key other : string) :
  key <> other ->
  JsMap.get (snd (JsMap.delete m key)) other = JsMap.get m other.
Proof.
  intro Hne. induction m as [| [k v] rest IH]; simpl.
  - reflexivity.
  - destruct (String.eqb k key) eqn:E; simpl.
    + apply String.eqb_eq in E. subst k.
      rewrite (proj2 (String.eqb_neq key other) Hne). reflexivity.
    + destruct (JsMap.delete rest key) as [found rest']. simpl in *.
      destruct (String.eqb k other); [reflexivity | exact IH].
Qed.

End JsMapFacts.

(** ** The order of strings *)

Section StringOrder.

Lemma Ascii_compare_trans_not_Gt (x y z : Ascii.ascii) :
  Ascii.compare x y <> Gt -> Ascii.compare y z <> Gt -> Ascii.compare x z <> Gt.
Proof.
  unfold Ascii.compare. rewrite !N.compare_gt_iff. lia.
Qed.

(** [<=] on strings is transitive. *)
Lemma String_leb_trans (a b c : string) :
  String.leb a b = true -> String.leb b c = true -> String.leb a c = true.
Proof.
  unfold String.leb. revert b c.
  induction a as [| x a IH]; intros [| y b] [| z c]; simpl;
    try reflexivity; try discriminate.
  unfold Ascii.compare in *.
  destruct (N.compare_spec (Ascii.N_of_ascii x) (Ascii.N_of_ascii y)) as [Exy | Lxy | Gxy];
    destruct (N.compare_spec (Ascii.N_of_ascii y) (Ascii.N_of_ascii z)) as [Eyz | Lyz | Gyz];
    try discriminate.
  - rewrite Exy, Eyz, N.compare_refl. apply IH.
  - intros _ _. rewrite Exy. rewrite (proj2 (N.compare_lt_iff _ _) Lyz). reflexivity.
  - intros _ _. rewrite <- Eyz. rewrite (proj2 (N.compare_lt_iff _ _) Lxy). reflexivity.
  - intros _ _.
    rewrite (proj2 (N.compare_lt_iff _ _) (N.lt_trans _ _ _ Lxy Lyz)). reflexivity.
Qed.

End StringOrder.

(** ** [MemStorage] *)

Section MemStorageFacts.

Import Schema.

(** A map keyed by identifier stays so when an entity is set under its own
    identifier. *)
Lemma keyed_set {V : Type} (ident : V -> string) (m : JsMap.t V)
    (key : string) (value : V) :
  (forall id v, JsMap.get m id = Some v -> ident v = id) ->
  ident value = key ->
  forall id v, JsMap.get (JsMap.set m key value) id = Some v -> ident v = id.
Proof.
  intros Hm Hv id v.
  destruct (String.eqb key id) eqn:E.
  - apply String.eqb_eq in E. subst id. rewrite JsMap_get_set_same.
    intro H. injection H as <-. exact Hv.
  - apply String.eqb_neq in E. rewrite JsMap_get_set_other by exact E. apply Hm.
Qed.

Lemma constructor_wellFormed (createdAt updatedAt : Date) :
  MemStorage.wellFormed (MemStorage.constructor createdAt updatedAt)
  /\ MemStorage.keyedById (MemStorage.constructor createdAt updatedAt).
Proof.
  split.
  - unfold MemStorage.wellFormed, JsMap.wellFormed; simpl.
    repeat split; repeat constructor; simpl; tauto.
  - repeat split.
    + exact (keyed_set SolarAnalysisProject.id JsMap.empty "ksc-001"
               (MemStorage.kscProject createdAt updatedAt)
               ltac:(intros id v H; discriminate H) eq_refl).
    + intros id record H. discriminate H.
    + intros id analysis H. discriminate H.
Qed.

(** X13.  The state of a storage is a family of maps with no key twice and every
    entity under its own identifier: the constructor builds such a state and
    every method that writes keeps it so. *)
Theorem storage_invariant :
  (forall createdAt updatedAt : Date,
     MemStorage.wellFormed (MemStorage.constructor createdAt updatedAt)
     /\ MemStorage.keyedById (MemStorage.constructor createdAt updatedAt))
  /\ (forall this : MemStorage.t,
        MemStorage.wellFormed this /\ MemStorage.keyedById this ->
        forall after : MemStorage.t,
          (exists project id now,
             after = snd (MemStorage.createSolarProject this project id now))
          \/ (exists id project now,
                after = snd (MemStorage.updateSolarProject this id project now))
          \/ (exists id, after = snd (MemStorage.deleteSolarProject this id))
          \/ (exists record id now,
                after = snd (MemStorage.createSolarDataRecord this record id now))
          \/ (exists analysis id now,
                after = snd (MemStorage.createComparisonAnalysis this analysis id now)) ->
          MemStorage.wellFormed after /\ MemStorage.keyedById after).
Proof.
  split; [exact constructor_wellFormed |].
  intros this [[Wp [Wr Wa]] [Kp [Kr Ka]]] after
    [[project [id [now ->]]]
    | [[id [project [now ->]]]
      | [[id ->]
        | [[record [id [now ->]]] | [analysis [id [now ->]]]]]]].
  - split.
    + repeat split; simpl; try assumption. apply JsMap_wellFormed_set. exact Wp.
    + repeat split; simpl; try assumption.
      apply (keyed_set SolarAnalysisProject.id); [exact Kp | reflexivity].
  - unfold MemStorage.updateSolarProject.
    destruct (JsMap.get (MemStorage.solarProjects this) id) as [existing |] eqn:E;
      simpl.
    + split.
      * repeat split; simpl; try assumption. apply JsMap_wellFormed_set. exact Wp.
      * repeat split; simpl; try assumption.
        apply (keyed_set SolarAnalysisProject.id); [exact Kp |].
        simpl. apply Kp. exact E.
    + split; repeat split; assumption.
  - unfold MemStorage.deleteSolarProject.
    pose proof (JsMap_wellFormed_delete (MemStorage.solarProjects this) id Wp) as Wd.
    pose proof (JsMap_get_delete_same (MemStorage.solarProjects this) id Wp) as Gs.
    pose proof (JsMap_get_delete_other (MemStorage.solarProjects this) id) as Go.
    destruct (JsMap.delete (MemStorage.solarProjects this) id) as [deleted rest].
    simpl in *. split.
    + repeat split; simpl; assumption.
    + repeat split; simpl; try assumption.
      intros other project H.
      destruct (String.eqb id other) eqn:E.
      * apply String.eqb_eq in E. subst other. rewrite Gs in H. discriminate H.
      * apply String.eqb_neq in E. rewrite (Go other E) in H. apply Kp. exact H.
  - split.
    + repeat split; simpl; try assumption. apply JsMap_wellFormed_set. exact Wr.
    + repeat split; simpl; try assumption.
      apply (keyed_set SolarDataRecord.id); [exact Kr | reflexivity].
  - split.
    + repeat split; simpl; try assumption. apply JsMap_wellFormed_set. exact Wa.
    + repeat split; simpl; try assumption.
      apply (keyed_set ComparisonAnalysis.id); [exact Ka | reflexivity].
Qed.

Lemma storage_invariant_witness :
  MemStorage.wellFormed
    (snd (MemStorage.deleteSolarProject (MemStorage.constructor 0%Z 0%Z) "ksc-001")).
Proof.
  apply (proj2 storage_invariant (MemStorage.constructor 0%Z 0%Z)
           (constructor_wellFormed 0%Z 0%Z)).
  right. right. left. exists "ksc-001"%string. reflexivity.
Defined.

(** X14.  A created project is found under the identifier it was given, with the
    creation time as both dates and with the optional properties exactly as
    the insert value has them (an omitted one stays omitted: the defaults of
    the table are not filled in); every other project, the data records and
    the comparisons are untouched, and under a fresh identifier the project
    comes last in the list of all projects. *)
Theorem create_project_then_get
    (this : MemStorage.t) (project : InsertSolarAnalysisProject.t)
    (id : string) (now : Date) :
  let created := fst (MemStorage.createSolarProject this project id now) in
  let after := snd (MemStorage.createSolarProject this project id now) in
  MemStorage.getSolarProject after id = Some created
  /\ SolarAnalysisProject.id created = id
  /\ SolarAnalysisProject.createdAt created = now
  /\ SolarAnalysisProject.updatedAt created = now
  /\ SolarAnalysisProject.panelArea created
     = InsertSolarAnalysisProject.panelArea project
  /\ SolarAnalysisProject.systemEfficiency created
     = InsertSolarAnalysisProject.systemEfficiency project
  /\ SolarAnalysisProject.missionDuration created
     = InsertSolarAnalysisProject.missionDuration project
  /\ SolarAnalysisProject.isActive created
     = InsertSolarAnalysisProject.isActive project
  /\ (forall other : string, other <> id ->
       MemStorage.getSolarProject after other
       = MemStorage.getSolarProject this other)
  /\ (MemStorage.getSolarProject this id = None ->
      MemStorage.getAllSolarProjects after
      = MemStorage.getAllSolarProjects this ++ [created])
  /\ MemStorage.solarDataRecords after = MemStorage.solarDataRecords this
  /\ MemStorage.comparisonAnalyses after = MemStorage.comparisonAnalyses this.
Proof.
  intros created after.
  repeat split; try reflexivity.
  - apply JsMap_get_set_same.
  - intros other Hne. apply JsMap_get_set_other. auto.
  - intro Hfresh. unfold MemStorage.getAllSolarProjects, after. simpl.
    rewrite (JsMap_set_fresh _ _ _ Hfresh).
    unfold JsMap.values. rewrite map_app. reflexivity.
Qed.

Lemma create_project_then_get_witness :
  MemStorage.getAllSolarProjects
    (snd (MemStorage.createSolarProject (MemStorage.constructor 0%Z 0%Z)
            (InsertSolarAnalysisProject.mk "Base" None 0 0 None None None None None
               None None None)
            "p-1" 5%Z))
  = MemStorage.getAllSolarProjects (MemStorage.constructor 0%Z 0%Z)
    ++ [fst (MemStorage.createSolarProject (MemStorage.constructor 0%Z 0%Z)
               (InsertSolarAnalysisProject.mk "Base" None 0 0 None None None None
                  None None None None)
               "p-1" 5%Z)].
Proof.
  apply (create_project_then_get (MemStorage.constructor 0%Z 0%Z)
           (InsertSolarAnalysisProject.mk "Base" None 0 0 None None None None None
              None None None)
           "p-1" 5%Z).
  reflexivity.
Defined.

(** Replacing the value of a present key by one with the same image under
    [f] leaves the images of the values as they were. *)
Lemma JsMap_values_set_present {V A : Type} (f : V -> A) (m : JsMap.t V)
    (key : string) (value old : V) :
  JsMap.get m key = Some old -> f value = f old ->
  map f (JsMap.values (JsMap.set m key value)) = map f (JsMap.values m).
Proof.
  intros Hget Hf. induction m as [| [k v] rest IH]; simpl in *.
  - discriminate.
  - destruct (String.eqb k key); simpl.
    + injection Hget as ->. rewrite Hf. reflexivity.
    + f_equal. apply IH. exact Hget.
Qed.

(** X15.  Updating an identifier that is not stored answers [undefined] and
    changes nothing.  Updating a stored project answers the merged project,
    which is then the one stored: its identifier and creation date are those
    of the stored project, its update date is the time of the call, and each
    of the twelve other properties is the one the update names, or the
    stored one when the update does not name it; the other projects, the
    identifiers in the list of all projects and their order, the data records
    and the comparisons are untouched. *)
Theorem update_project
    (this : MemStorage.t) (id : string)
    (project : PartialInsertSolarAnalysisProject.t) (now : Date) :
  let answer := fst (MemStorage.updateSolarProject this id project now) in
  let after := snd (MemStorage.updateSolarProject this id project now) in
  (MemStorage.getSolarProject this id = None -> answer = None /\ after = this)
  /\ (forall existing : SolarAnalysisProject.t,
        MemStorage.getSolarProject this id = Some existing ->
        exists updated : SolarAnalysisProject.t,
          answer = Some updated
          /\ MemStorage.getSolarProject after id = Some updated
          /\ SolarAnalysisProject.id updated = SolarAnalysisProject.id existing
          /\ SolarAnalysisProject.createdAt updated
             = SolarAnalysisProject.createdAt existing
          /\ SolarAnalysisProject.updatedAt updated = now
          /\ SolarAnalysisProject.name updated
             = match PartialInsertSolarAnalysisProject.name project with
               | Some value => value
               | None => SolarAnalysisProject.name existing
               end
          /\ SolarAnalysisProject.description updated
             = match PartialInsertSolarAnalysisProject.description project with
               | Some value => Some value
               | None => SolarAnalysisProject.description existing
               end
          /\ SolarAnalysisProject.latitude updated
             = match PartialInsertSolarAnalysisProject.latitude project with
               | Some value => value
               | None => SolarAnalysisProject.latitude existing
               end
          /\ SolarAnalysisProject.longitude updated
             = match PartialInsertSolarAnalysisProject.longitude project with
               | Some value => value
               | None => SolarAnalysisProject.longitude existing
               end
          /\ SolarAnalysisProject.elevation updated
             = match PartialInsertSolarAnalysisProject.elevation project with
               | Some value => Some value
               | None => SolarAnalysisProject.elevation existing
               end
          /\ SolarAnalysisProject.timezone updated
             = match PartialInsertSolarAnalysisProject.timezone project with
               | Some value => Some value
               | None => SolarAnalysisProject.timezone existing
               end
          /\ SolarAnalysisProject.panelArea updated
             = match PartialInsertSolarAnalysisProject.panelArea project with
               | Some value => Some value
               | None => SolarAnalysisProject.panelArea existing
               end
          /\ SolarAnalysisProject.systemEfficiency updated
             = match PartialInsertSolarAnalysisProject.systemEfficiency project with
               | Some value => Some value
               | None => SolarAnalysisProject.systemEfficiency existing
               end
          /\ SolarAnalysisProject.missionDuration updated
             = match PartialInsertSolarAnalysisProject.missionDuration project with
               | Some value => Some value
               | None => SolarAnalysisProject.missionDuration existing
               end
          /\ SolarAnalysisProject.solarData updated
             = match PartialInsertSolarAnalysisProject.solarData project with
               | Some value => Some value
               | None => SolarAnalysisProject.solarData existing
               end
          /\ SolarAnalysisProject.calculations updated
             = match PartialInsertSolarAnalysisProject.calculations project with
               | Some value => Some value
               | None => SolarAnalysisProject.calculations existing
               end
          /\ SolarAnalysisProject.isActive updated
             = match PartialInsertSolarAnalysisProject.isActive project with
               | Some value => Some value
               | None => SolarAnalysisProject.isActive existing
               end
          /\ map SolarAnalysisProject.id (MemStorage.getAllSolarProjects after)
             = map SolarAnalysisProject.id (MemStorage.getAllSolarProjects this))
  /\ (forall other : string, other <> id ->
        MemStorage.getSolarProject after other
        = MemStorage.getSolarProject this other)
  /\ MemStorage.solarDataRecords after = MemStorage.solarDataRecords this
  /\ MemStorage.comparisonAnalyses after = MemStorage.comparisonAnalyses this.
Proof.
  intros answer after. unfold answer, after, MemStorage.updateSolarProject,
    MemStorage.getSolarProject, MemStorage.getAllSolarProjects.
  destruct (JsMap.get (MemStorage.solarProjects this) id) as [existing |] eqn:E;
    simpl.
  - split; [discriminate |]. split; [| split; [| split; reflexivity]].
    + intros existing' H. injection H as <-.
      exists (MemStorage.updatedProject existing project now).
      split; [reflexivity |].
      split; [apply JsMap_get_set_same |].
      repeat (split; [reflexivity |]).
      apply (JsMap_values_set_present SolarAnalysisProject.id _ _ _ existing);
        [exact E | reflexivity].
    + intros other Hne. apply JsMap_get_set_other. auto.
  - split; [intros _; split; reflexivity |].
    split; [discriminate |]. split; [| split; reflexivity].
    intros other _. exact eq_refl.
Qed.

Lemma update_project_witness :
  exists updated : SolarAnalysisProject.t,
    fst (MemStorage.updateSolarProject (MemStorage.constructor 0%Z 0%Z) "ksc-001"
           MemStorage.panelAreaUpdate 9%Z)
    = Some updated
    /\ SolarAnalysisProject.panelArea updated = Some 250
    /\ SolarAnalysisProject.latitude updated = 28.5721
    /\ SolarAnalysisProject.isActive updated = Some true
    /\ SolarAnalysisProject.createdAt updated = 0%Z
    /\ SolarAnalysisProject.updatedAt updated = 9%Z.
Proof.
  destruct (proj1 (proj2 (update_project (MemStorage.constructor 0%Z 0%Z) "ksc-001"
                            MemStorage.panelAreaUpdate 9%Z))
              (MemStorage.kscProject 0%Z 0%Z) eq_refl)
    as (updated & Hanswer & _ & _ & Hcreated & Hupdated & _ & _ & Hlatitude
        & _ & _ & _ & Harea & _ & _ & _ & _ & Hactive & _).
  exists updated.
  split; [exact Hanswer |].
  split; [exact Harea |].
  split; [exact Hlatitude |].
  split; [exact Hactive |].
  split; [exact Hcreated | exact Hupdated].
Defined.

(** X16.  Deleting answers [true] exactly when the project was stored.  Afterwards
    the project is not found, a second deletion answers [false], the other
    projects are as before, and the data records are untouched: those of the
    deleted project are still returned. *)
Theorem deleteSolarProject_removes (this : MemStorage.t) (id : string) :
  MemStorage.wellFormed this ->
  let answer := fst (MemStorage.deleteSolarProject this id) in
  let after := snd (MemStorage.deleteSolarProject this id) in
  (answer = true <-> MemStorage.getSolarProject this id <> None)
  /\ MemStorage.getSolarProject after id = None
  /\ fst (MemStorage.deleteSolarProject after id) = false
  /\ (forall other : string, other <> id ->
        MemStorage.getSolarProject after other
        = MemStorage.getSolarProject this other)
  /\ (forall projectId : string,
        MemStorage.getSolarDataForProject after projectId
        = MemStorage.getSolarDataForProject this projectId).
Proof.
  intros [Wp _] answer after.
  unfold answer, after, MemStorage.deleteSolarProject, MemStorage.getSolarProject.
  pose proof (JsMap_delete_found (MemStorage.solarProjects this) id) as Hfound.
  pose proof (JsMap_get_delete_same (MemStorage.solarProjects this) id Wp) as Hsame.
  pose proof (JsMap_get_delete_other (MemStorage.solarProjects this) id) as Hother.
  destruct (JsMap.delete (MemStorage.solarProjects this) id) as [deleted rest].
  simpl in *.
  split; [exact Hfound |]. split; [exact Hsame |]. split; [| split].
  - rewrite (JsMap_delete_absent rest id Hsame). reflexivity.
  - intros other Hne. apply Hother. auto.
  - reflexivity.
Qed.

Lemma deleteSolarProject_removes_witness :
  MemStorage.getSolarProject
    (snd (MemStorage.deleteSolarProject (MemStorage.constructor 0%Z 0%Z) "ksc-001"))
    "ksc-001"
  = None.
Proof.
  apply (deleteSolarProject_removes (MemStorage.constructor 0%Z 0%Z) "ksc-001"
           (proj1 (constructor_wellFormed 0%Z 0%Z))).
Defined.

(** X17.  The records of a date range are the records of the project whose date
    lies, as a string, between the two bounds; when the start is after the
    end there is none. *)
Theorem data_by_date_range
    (this : MemStorage.t) (projectId startDate endDate : string) :
  MemStorage.getSolarDataByDateRange this projectId startDate endDate
  = filter
      (fun record =>
         String.leb startDate (SolarDataRecord.date record)
         && String.leb (SolarDataRecord.date record) endDate)
      (MemStorage.getSolarDataForProject this projectId)
  /\ (forall record : SolarDataRecord.t,
        In record
          (MemStorage.getSolarDataByDateRange this projectId startDate endDate)
        <-> In record (MemStorage.getSolarDataForProject this projectId)
            /\ String.leb startDate (SolarDataRecord.date record) = true
            /\ String.leb (SolarDataRecord.date record) endDate = true)
  /\ (String.leb startDate endDate = false ->
      MemStorage.getSolarDataByDateRange this projectId startDate endDate = []).
Proof.
  unfold MemStorage.getSolarDataByDateRange, MemStorage.getSolarDataForProject.
  set (records := JsMap.values (MemStorage.solarDataRecords this)).
  assert (Hfilter :
    filter
      (fun record =>
         String.eqb (SolarDataRecord.projectId record) projectId
         && String.leb startDate (SolarDataRecord.date record)
         && String.leb (SolarDataRecord.date record) endDate) records
    = filter
        (fun record =>
           String.leb startDate (SolarDataRecord.date record)
           && String.leb (SolarDataRecord.date record) endDate)
        (filter
           (fun record => String.eqb (SolarDataRecord.projectId record) projectId)
           records)).
  { induction records as [| r rs IH]; simpl; [reflexivity |].
    destruct (String.eqb (SolarDataRecord.projectId r) projectId); simpl.
    - destruct (String.leb startDate (SolarDataRecord.date r)
                && String.leb (SolarDataRecord.date r) endDate);
        rewrite IH; reflexivity.
    - exact IH. }
  split; [exact Hfilter |]. split.
  - intro record. rewrite Hfilter, filter_In, andb_true_iff. tauto.
  - intro Hinv. rewrite Hfilter. clear Hfilter.
    induction (filter
                 (fun record =>
                    String.eqb (SolarDataRecord.projectId record) projectId)
                 records) as [| r rs IH]; simpl; [reflexivity |].
    destruct (String.leb startDate (SolarDataRecord.date r)) eqn:E1; simpl;
      [| exact IH].
    destruct (String.leb (SolarDataRecord.date r) endDate) eqn:E2; [| exact IH].
    rewrite (String_leb_trans _ _ _ E1 E2) in Hinv. discriminate Hinv.
Qed.

Lemma data_by_date_range_witness :
  MemStorage.getSolarDataByDateRange (MemStorage.constructor 0%Z 0%Z)
    "ksc-001" "2024-02-01" "2024-01-01"
  = [].
Proof.
  apply (data_by_date_range (MemStorage.constructor 0%Z 0%Z)
           "ksc-001" "2024-02-01" "2024-01-01").
  reflexivity.
Defined.

(** X18.  A record created under a fresh identifier is stored as given, whether or
    not a project with its [projectId] exists, and comes last among the
    records of that project; the records of the other projects are as
    before. *)
Theorem create_data_record_then_list
    (this : MemStorage.t) (record : InsertSolarDataRecord.t)
    (id : string) (now : Date) (projectId : string) :
  JsMap.get (MemStorage.solarDataRecords this) id = None ->
  let created := fst (MemStorage.createSolarDataRecord this record id now) in
  let after := snd (MemStorage.createSolarDataRecord this record id now) in
  SolarDataRecord.projectId created = InsertSolarDataRecord.projectId record
  /\ SolarDataRecord.date created = InsertSolarDataRecord.date record
  /\ MemStorage.getSolarDataForProject after projectId
     = MemStorage.getSolarDataForProject this projectId
       ++ (if String.eqb (InsertSolarDataRecord.projectId record) projectId
           then [created] else [])
  /\ MemStorage.solarProjects after = MemStorage.solarProjects this.
Proof.
  intros Hfresh created after.
  repeat split.
  unfold after, MemStorage.getSolarDataForProject. simpl.
  rewrite (JsMap_set_fresh _ _ _ Hfresh).
  unfold JsMap.values. rewrite map_app, filter_app. simpl.
  destruct (String.eqb (InsertSolarDataRecord.projectId record) projectId);
    reflexivity.
Qed.

Lemma create_data_record_then_list_witness :
  MemStorage.getSolarDataForProject
    (snd (MemStorage.createSolarDataRecord (MemStorage.constructor 0%Z 0%Z)
            (InsertSolarDataRecord.mk "no-such-project" "2024-01-01" 5 20
               None None None None None None)
            "r-1" 7%Z))
    "no-such-project"
  = [fst (MemStorage.createSolarDataRecord (MemStorage.constructor 0%Z 0%Z)
            (InsertSolarDataRecord.mk "no-such-project" "2024-01-01" 5 20
               None None None None None None)
            "r-1" 7%Z)].
Proof.
  apply (create_data_record_then_list (MemStorage.constructor 0%Z 0%Z)
           (InsertSolarDataRecord.mk "no-such-project" "2024-01-01" 5 20
              None None None None None None)
           "r-1" 7%Z "no-such-project").
  reflexivity.
Defined.

End MemStorageFacts.

(** ** The project routes *)

Section RoutesFacts.

Import Schema.

(** X19.  [DELETE /api/projects/:id] answers 204 with no body when the project was
    stored and 404 otherwise, leaving the storage as it was; after either
    answer the project is gone: a second [DELETE] and a [GET] of it answer
    404. *)
Theorem delete_route (storage : MemStorage.t) (id : string) :
  MemStorage.wellFormed storage ->
  let response := fst (Routes.delete_project storage id) in
  let after := snd (Routes.delete_project storage id) in
  (MemStorage.getSolarProject storage id <> None ->
   response = Routes.status_send 204)
  /\ (MemStorage.getSolarProject storage id = None ->
      response = Routes.status_json 404 (Routes.Error "Project not found")
      /\ after = storage)
  /\ fst (Routes.delete_project after id)
     = Routes.status_json 404 (Routes.Error "Project not found")
  /\ Routes.get_project after id
     = Routes.status_json 404 (Routes.Error "Project not found").
Proof.
  intros [Wp _] response after.
  unfold response, after, Routes.delete_project, Routes.get_project,
    MemStorage.deleteSolarProject, MemStorage.getSolarProject.
  pose proof (JsMap_delete_found (MemStorage.solarProjects storage) id) as Hfound.
  pose proof (JsMap_get_delete_same (MemStorage.solarProjects storage) id Wp) as Hgone.
  pose proof (JsMap_delete_absent (MemStorage.solarProjects storage) id) as Habsent.
  destruct (JsMap.delete (MemStorage.solarProjects storage) id) as [deleted rest].
  simpl in Hfound, Hgone.
  split; [| split; [| split]].
  - intro Hpresent. apply Hfound in Hpresent. subst deleted. reflexivity.
  - intro Hnone. specialize (Habsent Hnone).
    assert (Hboth : deleted = false /\ rest = MemStorage.solarProjects storage)
      by (split; congruence).
    destruct Hboth as [Hd Hr]. rewrite Hd, Hr. simpl.
    split; [reflexivity | destruct storage; reflexivity].
  - destruct deleted; simpl; rewrite (JsMap_delete_absent rest id Hgone);
      reflexivity.
  - destruct deleted; simpl; rewrite Hgone; reflexivity.
Qed.

Lemma delete_route_witness :
  fst (Routes.delete_project (MemStorage.constructor 0%Z 0%Z) "ksc-001")
  = Routes.status_send 204.
Proof.
  apply (delete_route (MemStorage.constructor 0%Z 0%Z) "ksc-001"
           (proj1 (constructor_wellFormed 0%Z 0%Z))).
  discriminate.
Defined.

(** X20.  [GET /api/projects/:id/data] always answers 200, also for an identifier
    that names no project, with records of that project only; when either
    bound of the range is missing or empty the other one is ignored and all
    the records of the project are returned. *)
Theorem project_data_route
    (storage : MemStorage.t) (id : string) (startDate endDate : option string) :
  exists data : list SolarDataRecord.t,
    Routes.get_project_data storage id startDate endDate
    = Routes.json (Routes.Data data)
    /\ (forall record : SolarDataRecord.t,
          In record data -> SolarDataRecord.projectId record = id)
    /\ (startDate = None \/ startDate = Some ""%string
        \/ endDate = None \/ endDate = Some ""%string ->
        data = MemStorage.getSolarDataForProject storage id).
Proof.
  unfold Routes.get_project_data.
  assert (Hall : forall record,
    In record (MemStorage.getSolarDataForProject storage id) ->
    SolarDataRecord.projectId record = id).
  { intros record H. unfold MemStorage.getSolarDataForProject in H.
    apply filter_In in H. apply String.eqb_eq. tauto. }
  destruct (Routes.truthy startDate && Routes.truthy endDate) eqn:E.
  - eexists. split; [reflexivity |]. split.
    + intros record H. unfold MemStorage.getSolarDataByDateRange in H.
      apply filter_In in H. destruct H as [_ H].
      apply andb_true_iff in H. destruct H as [H _].
      apply andb_true_iff in H. destruct H as [H _].
      apply String.eqb_eq. exact H.
    + apply andb_true_iff in E. destruct E as [Es Ee].
      intros [-> | [-> | [-> | ->]]]; discriminate.
  - eexists. split; [reflexivity |]. split; [exact Hall | reflexivity].
Qed.

(** X21.  [POST /api/projects] answers 400 and stores nothing when the body does
    not validate; otherwise it answers 201 with the created project, which a
    [GET] of its identifier then returns. *)
Theorem post_project_route
    (storage : MemStorage.t) (id : string) (now : Date) :
  Routes.post_project storage None id now
  = (Routes.status_json 400 (Routes.Error "Invalid project data"), storage)
  /\ (forall validatedData : InsertSolarAnalysisProject.t,
        let response := fst (Routes.post_project storage (Some validatedData) id now) in
        let after := snd (Routes.post_project storage (Some validatedData) id now) in
        exists project : SolarAnalysisProject.t,
          response = Routes.status_json 201 (Routes.Project project)
          /\ SolarAnalysisProject.id project = id
          /\ Routes.get_project after id = Routes.json (Routes.Project project)).
Proof.
  split; [reflexivity |].
  intros validatedData response after.
  exists (fst (MemStorage.createSolarProject storage validatedData id now)).
  repeat split.
  unfold after, Routes.get_project. simpl.
  unfold MemStorage.getSolarProject. simpl.
  rewrite JsMap_get_set_same. reflexivity.
Qed.

(** X22.  [PUT /api/projects/:id] answers 400 when the body does not validate and
    404 when it does but the identifier names no project, and stores nothing
    in either case; otherwise it answers 200 with the updated project, which
    a [GET] of the identifier then returns. *)
Theorem put_project_route
    (storage : MemStorage.t) (id : string) (now : Date) :
  Routes.put_project storage id None now
  = (Routes.status_json 400 (Routes.Error "Invalid project data"), storage)
  /\ (forall validatedData : PartialInsertSolarAnalysisProject.t,
        MemStorage.getSolarProject storage id = None ->
        Routes.put_project storage id (Some validatedData) now
        = (Routes.status_json 404 (Routes.Error "Project not found"), storage))
  /\ (forall (validatedData : PartialInsertSolarAnalysisProject.t)
             (existing : SolarAnalysisProject.t),
        MemStorage.getSolarProject storage id = Some existing ->
        let response := fst (Routes.put_project storage id (Some validatedData) now) in
        let after := snd (Routes.put_project storage id (Some validatedData) now) in
        response
        = Routes.json
            (Routes.Project (MemStorage.updatedProject existing validatedData now))
        /\ Routes.get_project after id = response).
Proof.
  split; [reflexivity |]. split.
  - intros validatedData Hn.
    unfold Routes.put_project, MemStorage.updateSolarProject.
    unfold MemStorage.getSolarProject in Hn. rewrite Hn. reflexivity.
  - intros validatedData existing He response after.
    unfold response, after, Routes.put_project, MemStorage.updateSolarProject,
      Routes.get_project.
    unfold MemStorage.getSolarProject in *. rewrite He. simpl.
    rewrite JsMap_get_set_same. split; reflexivity.
Qed.

Lemma put_project_route_witness :
  Routes.put_project (MemStorage.constructor 0%Z 0%Z) "absent"
    (Some MemStorage.emptyUpdate) 3%Z
  = (Routes.status_json 404 (Routes.Error "Project not found"),
     MemStorage.constructor 0%Z 0%Z).
Proof.
  apply (proj1 (proj2 (put_project_route (MemStorage.constructor 0%Z 0%Z)
                         "absent" 3%Z))).
  reflexivity.
Defined.

End RoutesFacts.

(** ** The caption computed from the metrics *)

Section Captions.

Import Js SolarCalculator.

(** X23.  Whatever the non-empty series, the sidebar captions the efficiency of
    its metrics "Excellent conditions". *)
Theorem sidebar_efficiency_caption (nasaData : NASAPowerResponse.t) :
  nonEmptySeries nasaData ->
  Sidebar.efficiencyCaption (calculateMetrics nasaData) = "Excellent conditions"%string.
Proof.
  intro Hne.
  pose proof (efficiency_ge_100 nasaData) as Heff.
  unfold Sidebar.efficiencyCaption.
  rewrite (proj2 (gt_true _ 90)) by lra. reflexivity.
Qed.

Lemma sidebar_efficiency_caption_witness :
  Sidebar.efficiencyCaption (calculateMetrics Sample.hotDay)
  = "Excellent conditions"%string.
Proof.
  apply (sidebar_efficiency_caption Sample.hotDay). split; discriminate.
Defined.

End Captions.

(** ** Listing and looking up *)

Section Listing.

Import Schema.

(** In a map with no key twice, the values are the values found under some
    key. *)
Lemma JsMap_In_values_get {V : Type} (m : JsMap.t V) (value : V) :
  JsMap.wellFormed m ->
  In value (JsMap.values m) -> exists key, JsMap.get m key = Some value.
Proof.
  unfold JsMap.wellFormed.
  induction m as [| [k v] rest IH]; simpl; intros Hwf Hin.
  - contradiction.
  - inversion Hwf as [| ? ? Hnotin Hrest]; subst.
    destruct Hin as [-> | Hin].
    + exists k. rewrite String.eqb_refl. reflexivity.
    + destruct (IH Hrest Hin) as [key Hkey]. exists key.
      destruct (String.eqb k key) eqn:E; [| exact Hkey].
      apply String.eqb_eq in E. subst key.
      exfalso. apply Hnotin. 
      destruct (JsMap.get rest k) eqn:G; [| discriminate].
      destruct (in_dec string_dec k (JsMap.keys rest)) as [Hk | Hk];
        [exact Hk |].
      apply JsMap_get_None_keys in Hk. congruence.
Qed.

(** X25.  In a storage that keeps its invariant, the projects listed by
    [getAllSolarProjects] are exactly those that [getSolarProject] finds, each
    under its own identifier. *)
Theorem listed_projects_are_found
    (this : MemStorage.t) (project : SolarAnalysisProject.t) :
  MemStorage.wellFormed this -> MemStorage.keyedById this ->
  (In project (MemStorage.getAllSolarProjects this)
   <-> MemStorage.getSolarProject this (SolarAnalysisProject.id project)
       = Some project).
Proof.
  intros [Wp _] [Kp _].
  unfold MemStorage.getAllSolarProjects, MemStorage.getSolarProject. split.
  - intro Hin. destruct (JsMap_In_values_get _ _ Wp Hin) as [key Hkey].
    rewrite (Kp key project Hkey). exact Hkey.
  - apply JsMap_get_In_values.
Qed.

Lemma listed_projects_are_found_witness :
  MemStorage.getSolarProject (MemStorage.constructor 0%Z 1%Z) "ksc-001"
  = Some (MemStorage.kscProject 0%Z 1%Z).
Proof.
  apply (proj1 (listed_projects_are_found (MemStorage.constructor 0%Z 1%Z)
                  (MemStorage.kscProject 0%Z 1%Z)
                  (proj1 (constructor_wellFormed 0%Z 1%Z))
                  (proj2 (constructor_wellFormed 0%Z 1%Z)))).
  left. reflexivity.
Defined.

(** X26.  A created comparison is found under the identifier it was given, with
    the creation time as its date; the other comparisons, the projects and
    the data records are untouched, and under a fresh identifier the
    comparison comes last in the list of all comparisons. *)
Theorem create_comparison_then_get
    (this : MemStorage.t) (analysis : InsertComparisonAnalysis.t)
    (id : string) (now : Date) :
  let created := fst (MemStorage.createComparisonAnalysis this analysis id now) in
  let after := snd (MemStorage.createComparisonAnalysis this analysis id now) in
  MemStorage.getComparisonAnalysis after id = Some created
  /\ ComparisonAnalysis.id created = id
  /\ ComparisonAnalysis.createdAt created = now
  /\ ComparisonAnalysis.projectIds created
     = InsertComparisonAnalysis.projectIds analysis
  /\ (forall other : string, other <> id ->
       MemStorage.getComparisonAnalysis after other
       = MemStorage.getComparisonAnalysis this other)
  /\ (MemStorage.getComparisonAnalysis this id = None ->
      MemStorage.getAllComparisonAnalyses after
      = MemStorage.getAllComparisonAnalyses this ++ [created])
  /\ MemStorage.solarProjects after = MemStorage.solarProjects this
  /\ MemStorage.solarDataRecords after = MemStorage.solarDataRecords this.
Proof.
  intros created after.
  repeat split; try reflexivity.
  - apply JsMap_get_set_same.
  - intros other Hne. apply JsMap_get_set_other. auto.
  - intro Hfresh. unfold MemStorage.getAllComparisonAnalyses, after. simpl.
    rewrite (JsMap_set_fresh _ _ _ Hfresh).
    unfold JsMap.values. rewrite map_app. reflexivity.
Qed.

Lemma create_comparison_then_get_witness :
  MemStorage.getAllComparisonAnalyses
    (snd (MemStorage.createComparisonAnalysis (MemStorage.constructor 0%Z 0%Z)
            (InsertComparisonAnalysis.mk "Sites" ["ksc-001"%string] "energy" None)
            "c-1" 4%Z))
  = MemStorage.getAllComparisonAnalyses (MemStorage.constructor 0%Z 0%Z)
    ++ [fst (MemStorage.createComparisonAnalysis (MemStorage.constructor 0%Z 0%Z)
               (InsertComparisonAnalysis.mk "Sites" ["ksc-001"%string] "energy" None)
               "c-1" 4%Z)].
Proof.
  apply (create_comparison_then_get (MemStorage.constructor 0%Z 0%Z)
           (InsertComparisonAnalysis.mk "Sites" ["ksc-001"%string] "energy" None)
           "c-1" 4%Z).
  reflexivity.
Defined.

End Listing.

(** ** The calculator in binary64 *)

Section Binary64Facts.

Import Stdlib.Floats.PrimFloat Stdlib.Floats.SpecFloat Stdlib.Floats.FloatOps
  Stdlib.Floats.FloatAxioms.
#[local] Set Warnings "-inexact-float".

(** Comparing in the other direction gives the opposite answer. *)
Lemma SFcompare_antisym (x y : spec_float) :
  SFcompare y x = option_map CompOpp (SFcompare x y).
Proof.
  destruct x as [sx | sx | | sx mx ex], y as [sy | sy | | sy my ey]; simpl;
    try destruct sx; try destruct sy; try reflexivity;
    rewrite (Z.compare_antisym ey ex); destruct (ey ?= ex)%Z; simpl;
    try reflexivity;
    rewrite (Pos.compare_cont_antisym mx my Eq); reflexivity.
Qed.

(** Only a [NaN] is not comparable. *)
Lemma SFcompare_None (x y : spec_float) :
  SFcompare x y = None -> x = S754_nan \/ y = S754_nan.
Proof.
  destruct x as [sx | sx | | sx mx ex], y as [sy | sy | | sy my ey]; simpl;
    try (intro H; discriminate H); auto.
Qed.

Lemma SFcompare_refl (x : spec_float) :
  x <> S754_nan -> SFcompare x x = Some Eq.
Proof.
  destruct x as [sx | sx | | sx mx ex]; simpl; intro H;
    try destruct sx; try reflexivity; try (contradiction H; reflexivity);
    rewrite Z.compare_refl, Pos.compare_cont_refl; reflexivity.
Qed.

Lemma is_nan_false (x : float) : is_nan x = false <-> Prim2SF x <> S754_nan.
Proof.
  unfold is_nan. rewrite eqb_spec. unfold SFeqb. split.
  - intros H E. rewrite E in H. discriminate H.
  - intro H. rewrite (SFcompare_refl _ H). reflexivity.
Qed.

Lemma is_nan_true (x : float) : is_nan x = true <-> Prim2SF x = S754_nan.
Proof.
  split.
  - intro H. destruct (Prim2SF x) eqn:E; try reflexivity;
      assert (N : is_nan x = false) by (apply is_nan_false; rewrite E; discriminate);
      rewrite N in H; discriminate H.
  - intro E. destruct (is_nan x) eqn:N; [reflexivity |].
    apply is_nan_false in N. contradiction.
Qed.

(** On numbers, [x >= y] holds exactly when [x < y] does not. *)
Lemma ge_iff_not_lt (x y : float) :
  is_nan x = false -> is_nan y = false ->
  Binary64.Js.ge x y = negb (Binary64.Js.lt x y).
Proof.
  intros Hx Hy. apply is_nan_false in Hx. apply is_nan_false in Hy.
  unfold Binary64.Js.ge, Binary64.Js.lt.
  rewrite leb_spec, ltb_spec. unfold SFleb, SFltb.
  rewrite (SFcompare_antisym (Prim2SF x) (Prim2SF y)).
  destruct (SFcompare (Prim2SF x) (Prim2SF y)) as [[ | | ] |] eqn:E; simpl;
    try reflexivity.
  destruct (SFcompare_None _ _ E); contradiction.
Qed.

(** On [NaN] both [x >= y] and [x < y] are false. *)
Lemma nan_compares_false (x y : float) :
  is_nan x = true ->
  Binary64.Js.ge x y = false /\ Binary64.Js.lt x y = false.
Proof.
  intro Hx. apply is_nan_true in Hx.
  unfold Binary64.Js.ge, Binary64.Js.lt.
  rewrite leb_spec, ltb_spec. unfold SFleb, SFltb. rewrite Hx.
  destruct (Prim2SF y); split; reflexivity.
Qed.


(** The panel-area advisory is pushed exactly when [totalEnergy < 1000]. *)
Lemma binary64_panel_area_advisory_iff
    (metrics : Binary64.SolarMetrics.t) (parameters : Binary64.MissionParameters.t)
    (totalEnergy batteryRequired : float) :
  In SolarCalculator.msgPanelArea
    (Binary64.SolarCalculator.generateRecommendations metrics parameters
       totalEnergy batteryRequired)
  <-> Binary64.Js.lt totalEnergy 1000 = true.
Proof.
  unfold Binary64.SolarCalculator.generateRecommendations, Binary64.Js.push.
  destruct (Binary64.Js.gt (Binary64.SolarMetrics.dailyIrradiance metrics) 6.5),
           (Binary64.Js.gt (Binary64.SolarMetrics.dailyIrradiance metrics) 4.5),
           (Binary64.Js.gt (Binary64.SolarMetrics.temperature metrics) 35),
           (Binary64.Js.lt (Binary64.SolarMetrics.temperature metrics) (-20)),
           (Binary64.Js.gt batteryRequired 2000),
           (Binary64.Js.lt totalEnergy 1000),
           (Binary64.Js.lt (Binary64.MissionParameters.systemEfficiency parameters)
              0.20);
    simpl; split; intro H; try reflexivity; try discriminate H;
    try (repeat (destruct H as [H | H]; [discriminate H |]); contradiction H);
    auto 8.
Qed.

(** X7.  In the results of [calculateMissionEnergy], when the total energy is a
    number the verdict and the advisory agree: the mission is viable exactly
    when the list does not hold the panel-area advisory.  When the total
    energy is [NaN], as for the metrics of an empty series, the mission is
    not viable and the advisory is not given either. *)
Theorem viability_agrees_with_advisory
    (metrics : Binary64.SolarMetrics.t) (parameters : Binary64.MissionParameters.t) :
  let results := Binary64.SolarCalculator.calculateMissionEnergy metrics parameters in
  (is_nan (Binary64.CalculationResults.totalEnergyOutput results) = false ->
   (Binary64.CalculationResults.missionViability results = true
    <-> ~ In SolarCalculator.msgPanelArea
            (Binary64.CalculationResults.recommendations results)))
  /\ (is_nan (Binary64.CalculationResults.totalEnergyOutput results) = true ->
      Binary64.CalculationResults.missionViability results = false
      /\ ~ In SolarCalculator.msgPanelArea
             (Binary64.CalculationResults.recommendations results)).
Proof.
  intro results.
  set (total := Binary64.CalculationResults.totalEnergyOutput results).
  assert (Hv : Binary64.CalculationResults.missionViability results
               = Binary64.Js.ge total 1000) by reflexivity.
  assert (Ha : In SolarCalculator.msgPanelArea
                 (Binary64.CalculationResults.recommendations results)
               <-> Binary64.Js.lt total 1000 = true)
    by apply binary64_panel_area_advisory_iff.
  split; intro Hnan.
  - rewrite Hv, Ha.
    rewrite (ge_iff_not_lt total 1000 Hnan eq_refl).
    destruct (Binary64.Js.lt total 1000); simpl; split; intro H;
      try discriminate H; try reflexivity.
    + exfalso. apply H. reflexivity.
    + intro K. discriminate K.
  - destruct (nan_compares_false total 1000 Hnan) as [Hge Hlt].
    rewrite Hv, Ha, Hge, Hlt. split; [reflexivity | discriminate].
Qed.

Lemma viability_agrees_with_advisory_witness :
  Binary64.CalculationResults.missionViability
    (Binary64.SolarCalculator.calculateMissionEnergy
       (Binary64.SolarCalculator.calculateMetrics Binary64.noDay)
       (Binary64.MissionParameters.mk 100 0.22 14 None))
  = false
  /\ ~ In SolarCalculator.msgPanelArea
         (Binary64.CalculationResults.recommendations
            (Binary64.SolarCalculator.calculateMissionEnergy
               (Binary64.SolarCalculator.calculateMetrics Binary64.noDay)
               (Binary64.MissionParameters.mk 100 0.22 14 None))).
Proof.
  apply (proj2 (viability_agrees_with_advisory
                  (Binary64.SolarCalculator.calculateMetrics Binary64.noDay)
                  (Binary64.MissionParameters.mk 100 0.22 14 None))).
  vm_compute. reflexivity.
Defined.

End Binary64Facts.
